(** * Supabase storage debug tool: a shallow embedding of
    [debug-supabase-storage.mjs] and the properties of its handlers.

    The script is a client of three collaborators it does not implement: the
    storage client library, Node's [http]/[https] request function and the
    local file system.  Their answers are fields of an environment record
    [Env]; every handler is a function of that environment in a small state
    and exception monad over the [World] the script can change (the global
    client handle, the console, the files, the lines still to be read from
    standard input) and the record of the calls it made. *)

From Stdlib Require Import ZArith Ascii String List Lia.
From stdpp Require Import base strings gmap pretty.
Import ListNotations.

Local Open Scope string_scope.
Local Open Scope Z_scope.

(** ** JavaScript strings

    Text is a sequence of 8-bit characters.  [toLowerCase] maps the
    letters A-Z and leaves every other character: on ASCII text it is the
    code's [toLowerCase].  The code's function also folds characters outside
    ASCII (U+212A lowers to k); text with such characters is outside this
    model.  The keywords the script looks for are ASCII. *)

Module Js.

Definition lowerChar (c : ascii) : ascii :=
  let n := nat_of_ascii c in
  if ((65 <=? n) && (n <=? 90))%nat then ascii_of_nat (n + 32) else c.

Fixpoint toLowerCase (s : string) : string :=
  match s with
  | EmptyString => EmptyString
  | String c s' => String (lowerChar c) (toLowerCase s')
  end.

Fixpoint startsWith (s p : string) {struct p} : bool :=
  match p, s with
  | EmptyString, _ => true
  | String _ _, EmptyString => false
  | String a p', String b s' => if Ascii.eqb a b then startsWith s' p' else false
  end.

Fixpoint includes (s k : string) : bool :=
  startsWith s k ||
  match s with
  | EmptyString => false
  | String _ s' => includes s' k
  end.

(** Content of a file or buffer: text, or bytes denoted by their base64
    encoding as in [Buffer.from(base64Image, "base64")]. *)
Inductive Content :=
| Text (s : string)
| Base64 (b64 : string).

(** The values that flow through the script. [JStream p] is
    [fs.createReadStream(p)]. *)
Inductive jsval :=
| JUndefined
| JNull
| JBool (b : bool)
| JNum (n : Z)
| JStr (s : string)
| JStream (path : string)
| JBuffer (c : Content).

(** [!!v] *)
Definition truthy (v : jsval) : bool :=
  match v with
  | JUndefined | JNull => false
  | JBool b => b
  | JNum n => negb (n =? 0)
  | JStr s => negb (String.eqb s "")
  | JStream _ | JBuffer _ => true
  end.

(** [`${v}`] *)
Definition toString (v : jsval) : string :=
  match v with
  | JUndefined => "undefined"
  | JNull => "null"
  | JBool true => "true"
  | JBool false => "false"
  | JNum n => pretty n
  | JStr s => s
  | JStream _ => "[object Object]"
  | JBuffer (Text s) => s
  | JBuffer (Base64 _) => "[object Buffer]"
  end.

(** [a === b]; a stream or a buffer is equal only to itself. *)
Definition strictEq (a b : jsval) : bool :=
  match a, b with
  | JUndefined, JUndefined | JNull, JNull => true
  | JBool x, JBool y => Bool.eqb x y
  | JNum x, JNum y => x =? y
  | JStr x, JStr y => String.eqb x y
  | _, _ => false
  end.

(** [a || b] *)
Definition or (a b : jsval) : jsval := if truthy a then a else b.

Definition strTruthy (s : string) : bool := negb (String.eqb s "").

End Js.
Export Js.

(** A thrown value: an [Error] instance, whose message is a string. *)
Record Exn := mkExn { exn_message : string }.

(** An error object handed back by the client library in [{data, error}];
    its [message] is whatever the service put there, or nothing. *)
Record ApiError := mkApiError { message : jsval }.

Definition errorOfExn (e : Exn) : ApiError := mkApiError (JStr (exn_message e)).

Definition TypeError (m : string) : Exn := mkExn m.

(** ** getErrorHint *)

Definition HINT_AUTH : string :=
  "Auth issue. Verify API key, RLS policies, or use Service Role Key. Key might be expired or invalid.".
Definition HINT_NOT_FOUND : string :=
  "Resource (bucket, file) not found. Check names and paths.".
Definition HINT_TIMEOUT : string :=
  "Network timeout. Check connectivity, Supabase status, or firewall.".
Definition HINT_LIMIT : string :=
  "Rate limit or resource limit exceeded. Check Supabase plan.".
Definition HINT_EXISTS : string :=
  "File already exists. Use 'upsert: true' or choose a different path if not intended.".

Definition DQ : string := String (ascii_of_nat 34) EmptyString.

Definition hintFallback (m : jsval) : string :=
  "Consult Supabase docs for: " ++ DQ ++
  toString (Js.or m (JStr "Unknown Supabase error")) ++ DQ.

(** [error.message?.toLowerCase()]: undefined for a missing message, the
    lowered string for a string, and a TypeError for any other value, which
    has no [toLowerCase] method. *)
Definition messageLower (m : jsval) : Exn + jsval :=
  match m with
  | JUndefined | JNull => inr JUndefined
  | JStr s => inr (JStr (toLowerCase s))
  | _ => inl (TypeError "error.message?.toLowerCase is not a function")
  end.

Definition getErrorHint (error : ApiError) : Exn + string :=
  match messageLower (message error) with
  | inl e => inl e
  | inr low =>
    let msg := match Js.or low (JStr "") with JStr s => s | _ => "" end in
    if includes msg "unauthorized" || includes msg "access denied" ||
       includes msg "jwt" || includes msg "token"
    then inr HINT_AUTH
    else if includes msg "not found" || includes msg "does not exist"
    then inr HINT_NOT_FOUND
    else if includes msg "timeout" then inr HINT_TIMEOUT
    else if includes msg "limit" then inr HINT_LIMIT
    else if includes msg "already exists" then inr HINT_EXISTS
    else inr (hintFallback (message error))
  end.

(** ** Paths ([path.join], [path.basename], parent directory) *)

Module Path.

Definition isSlash (c : ascii) : bool := Ascii.eqb c "/"%char.

(** [path.join(dir, name)] for a normalised directory and one segment. *)
Definition join (dir name : string) : string := dir ++ "/" ++ name.

(** The string before and after the last slash. *)
Fixpoint splitLast (s : string) : option (string * string) :=
  match s with
  | EmptyString => None
  | String c s' =>
    match splitLast s' with
    | Some (d, b) => Some (String c d, b)
    | None => if isSlash c then Some (EmptyString, s') else None
    end
  end.

(** The directory a file at [p] is created in. *)
Definition parent (p : string) : string :=
  match splitLast p with
  | Some (EmptyString, _) => "/"
  | Some (d, _) => d
  | None => "."
  end.

(** [path.basename]: the last non-empty segment, trailing slashes ignored. *)
Fixpoint basenameFrom (s cur last : string) : string :=
  match s with
  | EmptyString => if String.eqb cur "" then last else cur
  | String c s' =>
    if isSlash c
    then basenameFrom s' "" (if String.eqb cur "" then last else cur)
    else basenameFrom s' (cur ++ String c EmptyString) last
  end.

Definition basename (p : string) : string := basenameFrom p "" "".

End Path.

(** ** The collaborators *)

Record Client := mkClient { supabaseUrl : string; supabaseKey : string }.

(** What an awaited client call does: the promise rejects, or it resolves
    to [{data, error}]. *)
Inductive Reply (A : Type) :=
| Rejects (e : Exn)
| Replies (data : option A) (error : option ApiError).
Arguments Rejects {A} e.
Arguments Replies {A} data error.

Record FileOptions := mkFileOptions {
  contentType : string;
  cacheControl : string;
  upsert : bool
}.

Record ListOptions := mkListOptions { limit : Z; offset : Z }.

Record UploadData := mkUploadData { path : jsval }.
Record UrlData := mkUrlData { publicUrl : option string }.
Record Blob := mkBlob { blob_bytes : Content; size : Z; type : string }.
Record Metadata := mkMetadata { md_size : option Z; mimetype : option string }.
Record Item := mkItem { name : string; id : jsval; metadata : option Metadata }.
Record User := mkUser { user_id : string; role : string }.
Record UserData := mkUserData { user : option User }.
Record Bucket := mkBucket { bucket_name : string; public : bool }.

Inductive Protocol := Http | Https.

(** What the request object emits, in order. *)
Inductive ReqEvent :=
| EvResponse (statusCode : Z)
| EvError (e : Exn)
| EvTimeout.

(** [protocol.get(url, options, cb)] either throws when the request is
    created or hands back a request that emits events. *)
Inductive GetOutcome :=
| GetThrows (e : Exn)
| GetEvents (evs : list ReqEvent).

Record Env := mkEnv {
  process_env : gmap string string;
  script_dir : string;                      (* __dirname *)
  url_parses : string → bool;               (* new URL(s) does not throw *)
  createClient : string → string → Exn + Client;
  auth_getUser : Reply UserData;
  listBuckets : Reply (list Bucket);
  (* upload(path, fileBody, fileOptions) of the client library *)
  upload : string → jsval → jsval → FileOptions → Reply UploadData;
  getPublicUrl : string → string → option UrlData;
  download : string → string → Reply Blob;
  list_ : string → string → ListOptions → Reply (list Item);
  http_get : Protocol → string → Z → GetOutcome;
  now : nat → Z;                            (* the n-th Date.now() *)
  isoNow : string;                          (* new Date().toISOString() *)
  fmtBytes : Z → string;                    (* formatBytes beyond 0: floating point *)
  unlink_fault : string → option Exn        (* the system refuses a removal *)
}.

(** ** The world the script changes *)

Inductive Level := Success | Error | Warn | Info | Tip.

Inductive Console :=
| Clear                                     (* console.clear() *)
| Log (level : Level) (msg : string)        (* logSuccess, logError, ... *)
| Banner (color pre msg : string)           (* log(color, prefix, message) *)
| Plain (s : string)                        (* console.log(s) *)
| Question (q : string).                    (* rl.question(q, ...) *)

Inductive Call :=
| CallCreateClient (url key : string)
| CallGetUser
| CallListBuckets
| CallUpload (bucket : string) (path fileBody : jsval) (opts : FileOptions)
| CallGetPublicUrl (bucket path : string)
| CallDownload (bucket path : string)
| CallList (bucket prefix : string) (opts : ListOptions)
| CallHttpGet (protocol : Protocol) (url : string) (timeout : Z).

Record FileSystem := mkFS { dirs : gset string; files : gmap string Content }.

Record World := mkWorld {
  supabase : option Client;                 (* let supabase; *)
  console : list Console;
  fsys : FileSystem;
  calls : list Call;
  stdin : list string;
  ticks : nat
}.

Definition setSupabase (c : Client) (w : World) : World :=
  mkWorld (Some c) (console w) (fsys w) (calls w) (stdin w) (ticks w).
Definition emit (c : Console) (w : World) : World :=
  mkWorld (supabase w) (console w ++ [c]) (fsys w) (calls w) (stdin w) (ticks w).
Definition setFsys (f : FileSystem) (w : World) : World :=
  mkWorld (supabase w) (console w) f (calls w) (stdin w) (ticks w).
Definition record (c : Call) (w : World) : World :=
  mkWorld (supabase w) (console w) (fsys w) (calls w ++ [c]) (stdin w) (ticks w).
Definition setStdin (l : list string) (w : World) : World :=
  mkWorld (supabase w) (console w) (fsys w) (calls w) l (ticks w).
Definition tick (w : World) : World :=
  mkWorld (supabase w) (console w) (fsys w) (calls w) (stdin w) (S (ticks w)).

(** ** The monad of the script: state, exceptions, and promises that never
    settle *)

Inductive outcome (A : Type) :=
| Ret (a : A)
| Throw (e : Exn)
| Hang.
Arguments Ret {A} a.
Arguments Throw {A} e.
Arguments Hang {A}.

Definition M (A : Type) : Type := World → outcome A * World.

Definition ret {A} (a : A) : M A := fun w => (Ret a, w).
Definition throw {A} (e : Exn) : M A := fun w => (Throw e, w).
Definition bind {A B} (m : M A) (k : A → M B) : M B := fun w =>
  match m w with
  | (Ret a, w') => k a w'
  | (Throw e, w') => (Throw e, w')
  | (Hang, w') => (Hang, w')
  end.
(** [try { m } catch (e) { h e }] *)
Definition tryCatch {A} (m : M A) (h : Exn → M A) : M A := fun w =>
  match m w with
  | (Throw e, w') => h e w'
  | r => r
  end.

Notation "'let*' x ':=' m 'in' k" := (bind m (fun x => k))
  (at level 10, x name, m at level 100, k at level 200).
Notation "m ;;; k" := (bind m (fun _ => k))
  (at level 200, right associativity).

Definition say (c : Console) : M unit := fun w => (Ret tt, emit c w).
Definition logSuccess (m : string) : M unit := say (Log Success m).
Definition logError (m : string) : M unit := say (Log Error m).
Definition logWarn (m : string) : M unit := say (Log Warn m).
Definition logInfo (m : string) : M unit := say (Log Info m).
Definition logTip (m : string) : M unit := say (Log Tip m).

Definition liftE {A} (r : Exn + A) : M A :=
  match r with inl e => throw e | inr a => ret a end.

(** [await ask(question)]: the next line of standard input; with none left
    the promise never settles. *)
Definition ask (question : string) : M string := fun w =>
  let w1 := emit (Question question) w in
  match stdin w1 with
  | [] => (Hang, w1)
  | l :: rest => (Ret l, setStdin rest w1)
  end.

(** The global [supabase]; reading a property of it while it is still
    undefined throws. *)
Definition theClient (prop : string) : M Client := fun w =>
  match supabase w with
  | Some c => (Ret c, w)
  | None => (Throw (TypeError
      ("Cannot read properties of undefined (reading '" ++ prop ++ "')")), w)
  end.

Definition await {A} (c : Call) (r : Reply A) : M (option A * option ApiError) :=
  fun w =>
    match r with
    | Rejects e => (Throw e, record c w)
    | Replies d e => (Ret (d, e), record c w)
    end.

(** [Date.now()] *)
Definition dateNow (env : Env) : M Z := fun w => (Ret (now env (ticks w)), tick w).

(** ** The file system *)

Definition ENOENT (op p : string) : Exn :=
  mkExn ("ENOENT: no such file or directory, " ++ op ++ " '" ++ p ++ "'").

Definition existsSync (p : string) : M bool := fun w =>
  (Ret (bool_decide (p ∈ dirs (fsys w)) || bool_decide (is_Some (files (fsys w) !! p))), w).

(** [fs.mkdirSync(p, { recursive: true })] *)
Definition mkdirSync (p : string) : M unit := fun w =>
  (Ret tt, setFsys (mkFS ({[p]} ∪ dirs (fsys w)) (files (fsys w))) w).

(** [fs.writeFileSync(p, c)]: the directory of [p] has to be there. *)
Definition writeFileSync (p : string) (c : Content) : M unit := fun w =>
  if bool_decide (Path.parent p ∈ dirs (fsys w))
  then (Ret tt, setFsys (mkFS (dirs (fsys w)) (<[p := c]> (files (fsys w)))) w)
  else (Throw (ENOENT "open" p), w).

Definition unlinkSync (env : Env) (p : string) : M unit := fun w =>
  match unlink_fault env p with
  | Some e => (Throw e, w)
  | None =>
    match files (fsys w) !! p with
    | Some _ => (Ret tt, setFsys (mkFS (dirs (fsys w)) (delete p (files (fsys w)))) w)
    | None => (Throw (ENOENT "unlink" p), w)
    end
  end.

(** ** Constants of the script *)

Definition ENV_SUPABASE_URL : string := "NEXT_PUBLIC_SUPABASE_URL".
Definition ENV_SERVICE_KEY : string := "SUPABASE_SERVICE_ROLE_KEY".
Definition ENV_ANON_KEY : string := "NEXT_PUBLIC_SUPABASE_ANON_KEY".

Definition TEST_TEXT_FILENAME : string := "debug-text.txt".
Definition TEST_IMAGE_FILENAME : string := "debug-image.png".
Definition DEFAULT_UPLOAD_PATH_PREFIX : string := "supabase-debug-tool".

Definition ESC : string := String (ascii_of_nat 27) EmptyString.
Definition NL : string := String (ascii_of_nat 10) EmptyString.
Definition COLORS_reset : string := ESC ++ "[0m".
Definition COLORS_dim : string := ESC ++ "[2m".
Definition COLORS_blue : string := ESC ++ "[34m".
Definition COLORS_cyan : string := ESC ++ "[36m".

Definition ICON_DIR : string := "ðŸ“".
Definition ICON_FILE : string := "ðŸ“„".

Definition upperChar (c : ascii) : ascii :=
  let n := nat_of_ascii c in
  if ((97 <=? n) && (n <=? 122))%nat then ascii_of_nat (n - 32) else c.

Fixpoint toUpperCase (s : string) : string :=
  match s with
  | EmptyString => EmptyString
  | String c s' => String (upperChar c) (toUpperCase s')
  end.

(** [for (x of l) f(x)], [l.forEach(f)] *)
Fixpoint forEach {A} (f : A → M unit) (l : list A) : M unit :=
  match l with
  | [] => ret tt
  | x :: l' => f x ;;; forEach f l'
  end.

(** The result of the reachability probe. *)
Record ProbeResult := mkProbe {
  accessible : bool;
  statusCode : Z;
  error : option string
}.

(** The promise built in [checkUrl]: only [resolve] is ever called, and
    only the first call counts. *)
Inductive Promise := Pending | Resolved (v : ProbeResult).

Definition resolve (v : ProbeResult) (p : Promise) : Promise :=
  match p with
  | Pending => Resolved v
  | Resolved _ => p
  end.

Definition onEvent (p : Promise) (ev : ReqEvent) : Promise :=
  match ev with
  | EvResponse status =>
    resolve (mkProbe ((200 <=? status) && (status <? 400)) status None) p
  | EvError _ => resolve (mkProbe false 0 (Some "Network error")) p
  | EvTimeout => resolve (mkProbe false 0 (Some "Timeout")) p
  end.

Record FileSource := mkFileSource {
  src_path : option string;
  src_buffer : option Content
}.

Record TestFile := mkTestFile {
  filePath : string;
  tf_contentType : string;
  fileSize : Z
}.

(** [Buffer.from(b64, "base64").length] *)
Definition base64Length (b64 : string) : Z :=
  let n := Z.of_nat (String.length b64) in
  let pad := if includes b64 "==" then 2 else if includes b64 "=" then 1 else 0 in
  3 * (n / 4) - pad.

(** [item.metadata?.size || 0] *)
Definition itemSize (item : Item) : Z :=
  match metadata item with
  | Some md => match md_size md with
               | Some n => if n =? 0 then 0 else n
               | None => 0
               end
  | None => 0
  end.

(** [item.metadata?.mimetype || "N/A"] *)
Definition itemMime (item : Item) : string :=
  match metadata item with
  | Some md => match mimetype md with
               | Some t => if strTruthy t then t else "N/A"
               | None => "N/A"
               end
  | None => "N/A"
  end.

Section Script.

Variable env : Env.

Definition TEMP_DIR_PATH : string := Path.join (script_dir env) "supabase-debug-temp".

Definition getenv (k : string) : jsval :=
  match process_env env !! k with
  | Some v => JStr v
  | None => JUndefined
  end.

Definition formatBytes (bytes : Z) : string :=
  if bytes =? 0 then "0 Bytes" else fmtBytes env bytes.

Definition protocolOf (url : string) : Protocol :=
  if startsWith url "https:" then Https else Http.

Definition checkUrl (url : string) : M ProbeResult := fun w =>
  let protocol := protocolOf url in
  let w1 := record (CallHttpGet protocol url 5000) w in
  match http_get env protocol url 5000 with
  | GetThrows e => (Throw e, w1)
  | GetEvents evs =>
    match fold_left onEvent evs Pending with
    | Resolved v => (Ret v, w1)
    | Pending => (Hang, w1)
    end
  end.

Definition errorOr (r : ProbeResult) (d : string) : string :=
  match error r with
  | Some e => if strTruthy e then e else d
  | None => d
  end.

(** [new URL(s)] *)
Definition newURL (s : string) : M unit :=
  if url_parses env s then ret tt else throw (TypeError "Invalid URL").

Definition validateEnvAndInitClient : M bool :=
  logInfo "Validating environment & initializing Supabase client..." ;;;
  let supabaseUrl := getenv ENV_SUPABASE_URL in
  let serviceKey := getenv ENV_SERVICE_KEY in
  let anonKey := getenv ENV_ANON_KEY in
  let supabaseKey := Js.or serviceKey anonKey in
  let* valid1 :=
    (if negb (truthy supabaseUrl)
     then logError (ENV_SUPABASE_URL ++ " is not set.") ;;; ret false
     else tryCatch
            (newURL (toString supabaseUrl) ;;;
             logSuccess (ENV_SUPABASE_URL ++ ": " ++ toString supabaseUrl) ;;;
             ret true)
            (fun _ =>
             logError ("Invalid " ++ ENV_SUPABASE_URL ++ ": " ++ toString supabaseUrl) ;;;
             ret false)) in
  let* valid :=
    (if negb (truthy supabaseKey)
     then logError ("No Supabase key found. Set " ++ ENV_SERVICE_KEY ++
                    " (recommended) or " ++ ENV_ANON_KEY ++ ".") ;;; ret false
     else logSuccess ("Supabase Key: " ++
                      (if truthy serviceKey then "Service Role (SET)" else "Anon (SET)")) ;;;
          (if negb (truthy serviceKey)
           then logWarn ("Using Anon Key. For full debug capabilities, " ++
                         ENV_SERVICE_KEY ++ " is STRONGLY recommended.")
           else ret tt) ;;;
          ret valid1) in
  if negb valid
  then logError "Critical environment variables missing or invalid. Exiting." ;;;
       ret false
  else
    tryCatch
      (let* c := (fun w =>
                  let w1 := record (CallCreateClient (toString supabaseUrl)
                                                     (toString supabaseKey)) w in
                  match createClient env (toString supabaseUrl) (toString supabaseKey) with
                  | inl e => (Throw e, w1)
                  | inr c => (Ret c, setSupabase c w1)
                  end) in
       logSuccess "Supabase client initialized." ;;;
       logInfo "Pinging Supabase URL..." ;;;
       let* urlCheck := checkUrl (toString supabaseUrl) in
       (if accessible urlCheck
        then logSuccess ("Supabase URL accessible (Status: " ++
                         pretty (statusCode urlCheck) ++ ").")
        else logWarn ("Supabase URL ping failed (Status: " ++
                      pretty (statusCode urlCheck) ++ ", Error: " ++
                      errorOr urlCheck "N/A" ++ "). May be okay for some setups.")) ;;;
       ret true)
      (fun error =>
       logError ("Supabase client initialization failed: " ++ exn_message error) ;;;
       ret false).

(** The first argument the script gives to [upload]. *)
Definition uploadSource (fileSource : FileSource) : jsval :=
  match src_path fileSource with
  | Some p =>
    if strTruthy p then JStream p
    else match src_buffer fileSource with Some c => JBuffer c | None => JUndefined end
  | None => match src_buffer fileSource with Some c => JBuffer c | None => JUndefined end
  end.

Definition coreUploadProcessor (bucketName targetPath : string)
    (fileSource : FileSource) (contentType : string) (fileSize : Z) : M jsval :=
  logInfo ("Attempting upload: " ++ bucketName ++ "/" ++ targetPath ++ " (" ++
           formatBytes fileSize ++ ") Type: " ++ contentType) ;;;
  let* startTime := dateNow env in
  tryCatch
    (let* _c := theClient "storage" in
     let opts := mkFileOptions contentType "3600" true in
     let* r := await (CallUpload bucketName (uploadSource fileSource) (JStr targetPath) opts)
                   (upload env bucketName (uploadSource fileSource) (JStr targetPath) opts) in
     match r with
     | (_, Some error) =>
       logError ("Upload FAILED: " ++ toString (message error)) ;;;
       let* hint := liftE (getErrorHint error) in
       logTip hint ;;;
       ret JNull
     | (data, None) =>
       let* t := dateNow env in
       let duration := t - startTime in
       let* data := match data with
                  | Some d => ret d
                  | None => throw (TypeError "Cannot read properties of null (reading 'path')")
                  end in
       logSuccess ("Upload SUCCEEDED in " ++ pretty duration ++ "ms. Path: " ++
                   toString (path data)) ;;;
       let* _c := theClient "storage" in
       let* urlData := (fun w => (Ret (getPublicUrl env bucketName targetPath),
                                record (CallGetPublicUrl bucketName targetPath) w)) in
       match urlData with
       | Some (mkUrlData (Some u)) =>
         if strTruthy u then
           logInfo ("Public URL: " ++ u) ;;;
           logInfo "Checking public URL accessibility..." ;;;
           let* publicUrlCheck := checkUrl u in
           (if accessible publicUrlCheck
            then logSuccess ("Public URL accessible (Status: " ++
                             pretty (statusCode publicUrlCheck) ++ ").")
            else logWarn ("Public URL check returned Status " ++
                          pretty (statusCode publicUrlCheck) ++
                          ". May indicate RLS, CORS, or private bucket issue.")) ;;;
           ret (path data)
         else
           logWarn "Could not retrieve public URL. Bucket might be private or an issue occurred." ;;;
           ret (path data)
       | _ =>
         logWarn "Could not retrieve public URL. Bucket might be private or an issue occurred." ;;;
         ret (path data)
       end
     end)
    (fun e =>
     logError ("Critical upload exception: " ++ exn_message e) ;;;
     let* hint := liftE (getErrorHint (errorOfExn e)) in
     logTip hint ;;;
     ret JNull).

Definition PNG_BASE64 : string :=
  "iVBORw0KGgoAAAANSUhEUgAAAAEAAAABCAQAAAC1HAwCAAAAC0lEQVR42mNkYAAAAAYAAjCB0C8AAAAASUVORK5CYII=".

Definition prepareTestFile (type : string) : M (option TestFile) :=
  let* there := existsSync TEMP_DIR_PATH in
  (if negb there then mkdirSync TEMP_DIR_PATH else ret tt) ;;;
  if String.eqb type "text" then
    let filePath := Path.join TEMP_DIR_PATH TEST_TEXT_FILENAME in
    let content := "Supabase Storage Debug Tool: Test file generated at " ++ isoNow env in
    writeFileSync filePath (Text content) ;;;
    ret (Some (mkTestFile filePath "text/plain" (Z.of_nat (String.length content))))
  else if String.eqb type "image" then
    let filePath := Path.join TEMP_DIR_PATH TEST_IMAGE_FILENAME in
    let buffer := Base64 PNG_BASE64 in
    writeFileSync filePath buffer ;;;
    ret (Some (mkTestFile filePath "image/png" (base64Length PNG_BASE64)))
  else ret None.

Definition handleGeneratedFileUpload (fileType : string) : M unit :=
  say Clear ;;;
  say (Banner COLORS_blue "===" ("GENERATED " ++ toUpperCase fileType ++
                                 " FILE UPLOAD ===" ++ NL)) ;;;
  let* bucketName := ask "Enter bucket name:" in
  if negb (strTruthy bucketName) then logError "Bucket name required."
  else
    let* testFile := prepareTestFile fileType in
    match testFile with
    | None => logError ("Failed to prepare test " ++ fileType ++ " file.")
    | Some testFile =>
      let defaultFileName := Path.basename (filePath testFile) in
      let* storagePathInput :=
        ask ("Enter storage path (default: " ++ DEFAULT_UPLOAD_PATH_PREFIX ++ "/" ++
             fileType ++ "/" ++ defaultFileName ++ "):") in
      let storagePath :=
        if strTruthy storagePathInput then storagePathInput
        else DEFAULT_UPLOAD_PATH_PREFIX ++ "/" ++ fileType ++ "/" ++ defaultFileName in
      let* _r := coreUploadProcessor bucketName storagePath
                   (mkFileSource (Some (filePath testFile)) None)
                   (tf_contentType testFile) (fileSize testFile) in
      tryCatch
        (unlinkSync env (filePath testFile) ;;;
         logInfo ("Cleaned up local test file: " ++ filePath testFile))
        (fun e => logWarn ("Failed to cleanup local test file: " ++ exn_message e))
    end.

(** Step 3 of [checkConnectivity], the check of the public storage
    endpoint. *)
Definition corsCheckStep : M unit :=
  logInfo (NL ++ "3. CORS Check (Public Storage Endpoint):") ;;;
  let supabaseUrl := getenv ENV_SUPABASE_URL in
  if truthy supabaseUrl then
    let storagePublicUrl := toString supabaseUrl ++ "/storage/v1/object/public/" in
    let* corsCheck := checkUrl storagePublicUrl in
    if accessible corsCheck || (statusCode corsCheck =? 400) then
      logSuccess ("Storage public endpoint seems accessible (Status: " ++
                  pretty (statusCode corsCheck) ++ ").")
    else
      logWarn ("Storage public endpoint check (Status: " ++
               pretty (statusCode corsCheck) ++ ", Error: " ++
               errorOr corsCheck "N/A" ++ "). Possible CORS issue.") ;;;
      logTip "Verify CORS settings in Supabase Dashboard: Project Settings > API > Storage."
  else logWarn "Supabase URL not set, cannot perform CORS check.".

Definition checkConnectivity : M unit :=
  say Clear ;;;
  say (Banner COLORS_blue "===" ("CONNECTION & CONFIGURATION TEST ===" ++ NL)) ;;;
  logInfo "1. Basic Supabase Client & Auth Status:" ;;;
  let* client := (fun w => (Ret (supabase w), w)) in
  match client with
  | None => logError "Supabase client instance MISSING."
  | Some _ =>
    logSuccess "Supabase client instance exists." ;;;
    (* supabase.auth.getUser().catch((e) => ({ data: {}, error: e })) *)
    let* r := tryCatch (await CallGetUser (auth_getUser env))
                       (fun e => ret (Some (mkUserData None), Some (errorOfExn e))) in
    let* user := match fst r with
                 | Some d => ret (user d)
                 | None => throw (TypeError
                     "Cannot destructure property 'user' of 'object.data' as it is null.")
                 end in
    let sessionLine :=
      match user with
      | Some u => logSuccess ("Authenticated as user: " ++ user_id u ++
                              " (" ++ role u ++ ")")
      | None => logInfo
          "No active user session (normal for service key or unauthenticated anon key)."
      end in
    (match snd r with
     | Some userError =>
       if negb (strictEq (message userError) (JStr "Auth session missing!"))
       then logWarn ("Auth check warning: " ++ toString (message userError))
       else sessionLine
     | None => sessionLine
     end) ;;;
    logInfo (NL ++ "2. Storage API Test (Listing Buckets):") ;;;
    let* b := await CallListBuckets (listBuckets env) in
    (match b with
     | (_, Some bucketsError) =>
       logError ("Storage API test FAILED: " ++ toString (message bucketsError)) ;;;
       let* hint := liftE (getErrorHint bucketsError) in
       logTip hint
     | (Some buckets, None) =>
       logSuccess ("Storage API accessible. Found " ++
                   pretty (Z.of_nat (length buckets)) ++ " buckets.")
     | (None, None) =>
       throw (TypeError "Cannot read properties of null (reading 'length')")
     end) ;;;
    corsCheckStep
  end.

(** The callback of [data.forEach] in [showBucketFiles]. *)
Definition showItem (bucketName prefix : string) (item : Item) : M unit :=
  let isDir := negb (truthy (id item)) in
  let itemName := (if isDir then ICON_DIR else ICON_FILE) ++ " " ++ name item in
  let itemMeta :=
    if isDir then "(Directory)"
    else "(" ++ formatBytes (itemSize item) ++ ", MIME: " ++ itemMime item ++ ")" in
  say (Plain (itemName ++ " " ++ COLORS_dim ++ itemMeta ++ COLORS_reset)) ;;;
  if negb isDir then
    let* _c := theClient "storage" in
    let target := (if strTruthy prefix then prefix ++ "/" else "") ++ name item in
    let* urlData := (fun w => (Ret (getPublicUrl env bucketName target),
                               record (CallGetPublicUrl bucketName target) w)) in
    match urlData with
    | Some (mkUrlData (Some u)) =>
      if strTruthy u
      then say (Plain ("   " ++ COLORS_cyan ++ "URL: " ++ u ++ COLORS_reset))
      else ret tt
    | _ => ret tt
    end
  else ret tt.

Definition showBucketFiles : M unit :=
  say Clear ;;;
  say (Banner COLORS_blue "===" ("LIST FILES IN BUCKET ===" ++ NL)) ;;;
  let* bucketName := ask "Enter bucket name:" in
  if negb (strTruthy bucketName) then logError "Bucket name required."
  else
    let* prefix := ask "Enter path prefix (optional, e.g., 'folder/subfolder'):" in
    logInfo ("Listing files in '" ++ bucketName ++ "' (prefix: '" ++
             (if strTruthy prefix then prefix else "/") ++ "')...") ;;;
    tryCatch
      (let* _c := theClient "storage" in
       let opts := mkListOptions 100 0 in
       let* r := await (CallList bucketName prefix opts)
                       (list_ env bucketName prefix opts) in
       match r with
       | (_, Some error) =>
         logError ("Failed to list files: " ++ toString (message error)) ;;;
         let* hint := liftE (getErrorHint error) in
         logTip hint
       | (None, None) =>
         throw (TypeError "Cannot read properties of null (reading 'length')")
       | (Some data, None) =>
         if (length data =? 0)%nat
         then logWarn "No files or folders found at this location."
         else
           logSuccess ("Found " ++ pretty (Z.of_nat (length data)) ++ " items:" ++ NL) ;;;
           forEach (showItem bucketName prefix) data
       end)
      (fun e => logError ("Unexpected error listing files: " ++ exn_message e)).

(** Step 1 of [checkDownload]: the download through the client, inside
    its [try]. *)
Definition downloadStep (bucketName filePath : string) : M unit :=
  logInfo (NL ++ "1. Attempting download via Supabase client: " ++
           bucketName ++ "/" ++ filePath) ;;;
  let* startTime := dateNow env in
  tryCatch
    (let* _c := theClient "storage" in
     let* r := await (CallDownload bucketName filePath)
                     (download env bucketName filePath) in
     match r with
     | (_, Some error) =>
       logError ("Download FAILED: " ++ toString (message error)) ;;;
       let* hint := liftE (getErrorHint error) in
       logTip hint
     | (blob, None) =>
       let* t := dateNow env in
       let duration := t - startTime in
       let* blob := match blob with
                    | Some b => ret b
                    | None => throw (TypeError
                        "Cannot read properties of null (reading 'size')")
                    end in
       logSuccess ("Download SUCCEEDED in " ++ pretty duration ++ "ms. Size: " ++
                   formatBytes (size blob) ++ ", Type: " ++ type blob) ;;;
       let dlPath := Path.join TEMP_DIR_PATH ("download_" ++ Path.basename filePath) in
       writeFileSync dlPath (blob_bytes blob) ;;;
       logInfo ("File saved locally to: " ++ dlPath ++ " (for inspection)")
     end)
    (fun e => logError ("Critical download exception: " ++ exn_message e)).

(** Step 2 of [checkDownload]: the public URL and its probe, after the
    [try]. *)
Definition publicUrlStep (bucketName filePath : string) : M unit :=
  logInfo (NL ++ "2. Checking public URL accessibility (if any):") ;;;
  let* _c := theClient "storage" in
  let* urlData := (fun w => (Ret (getPublicUrl env bucketName filePath),
                             record (CallGetPublicUrl bucketName filePath) w)) in
  match urlData with
  | Some (mkUrlData (Some u)) =>
    if strTruthy u then
      logInfo ("Public URL: " ++ u) ;;;
      let* publicUrlCheck := checkUrl u in
      if accessible publicUrlCheck
      then logSuccess ("Public URL accessible (Status: " ++
                       pretty (statusCode publicUrlCheck) ++ ").")
      else logWarn ("Public URL check (Status: " ++
                    pretty (statusCode publicUrlCheck) ++ ", Error: " ++
                    errorOr publicUrlCheck "N/A" ++ "). RLS/CORS/private bucket?")
    else logWarn "Could not retrieve public URL for this file."
  | _ => logWarn "Could not retrieve public URL for this file."
  end.

Definition checkDownload : M unit :=
  say Clear ;;;
  say (Banner COLORS_blue "===" ("DOWNLOAD TEST ===" ++ NL)) ;;;
  let* bucketName := ask "Enter bucket name:" in
  if negb (strTruthy bucketName) then logError "Bucket name required."
  else
    let* filePath := ask "Enter full file path in bucket:" in
    if negb (strTruthy filePath) then logError "File path required."
    else
      downloadStep bucketName filePath ;;;
      publicUrlStep bucketName filePath.

End Script.

(** ** A sample session

    One concrete set of collaborators, used to run the handlers: a project
    at [https://proj.supabase.co] with a service key, a client library with
    the signature [upload(path, fileBody, fileOptions)] whose path has to be
    a string, and an HTTP layer that refuses to create a request for a
    string that is not an absolute http(s) URL. *)

Definition SAMPLE_URL : string := "https://proj.supabase.co".

Definition isHttpUrl (s : string) : bool :=
  startsWith s "http://" || startsWith s "https://".

Definition sampleBlob : Blob := mkBlob (Text "hello") 5 "text/plain".

Definition sampleEnv : Env := {|
  process_env := <[ENV_SUPABASE_URL := SAMPLE_URL]>
                   (<[ENV_SERVICE_KEY := "service-role-key"]> ∅);
  script_dir := "/home/dev/tool";
  url_parses := isHttpUrl;
  createClient := fun u k => inr (mkClient u k);
  auth_getUser := Replies (Some (mkUserData None))
                          (Some (mkApiError (JStr "Auth session missing!")));
  listBuckets := Replies (Some [mkBucket "avatars" true]) None;
  upload := fun _ path _ _ =>
    match path with
    | JStr p => Replies (Some (mkUploadData (JStr p))) None
    | _ => Rejects (TypeError "path.replace is not a function")
    end;
  getPublicUrl := fun b p =>
    Some (mkUrlData (Some (SAMPLE_URL ++ "/storage/v1/object/public/" ++ b ++ "/" ++ p)));
  download := fun _ p =>
    if String.eqb p "docs/a.txt" then Replies (Some sampleBlob) None
    else Replies None (Some (mkApiError (JStr "Object not found")));
  list_ := fun _ _ _ =>
    Replies (Some [mkItem "docs" JUndefined None;
                   mkItem "a.txt" (JStr "7f1c") None]) None;
  http_get := fun _ url _ =>
    if String.eqb url (SAMPLE_URL ++ "/storage/v1/object/public/")
    then GetEvents [EvResponse 400]
    else if isHttpUrl url then GetEvents [EvResponse 200]
    else GetThrows (TypeError "Invalid URL");
  now := fun n => 1000 + 25 * Z.of_nat n;
  isoNow := "2024-01-01T00:00:00.000Z";
  fmtBytes := fun n => pretty n ++ " Bytes";
  unlink_fault := fun _ => None
|}.

(** A session right after start-up: client built, nothing printed, the
    script directory present and no temp directory yet. *)
Definition freshWorld (input : list string) : World := {|
  supabase := Some (mkClient SAMPLE_URL "service-role-key");
  console := [];
  fsys := mkFS {[ "/home/dev/tool" ]} ∅;
  calls := [];
  stdin := input;
  ticks := 0
|}.

(** The world before start-up. *)
Definition bootWorld : World := {|
  supabase := None;
  console := [];
  fsys := mkFS {[ "/home/dev/tool" ]} ∅;
  calls := [];
  stdin := [];
  ticks := 0
|}.

(** Variations of the sample session. *)
Definition withProcessEnv (vars : gmap string string) (e : Env) : Env :=
  mkEnv vars (script_dir e) (url_parses e) (createClient e) (auth_getUser e)
        (listBuckets e) (upload e) (getPublicUrl e) (download e) (list_ e)
        (http_get e) (now e) (isoNow e) (fmtBytes e) (unlink_fault e).
Definition withUpload
    (f : string → jsval → jsval → FileOptions → Reply UploadData) (e : Env) : Env :=
  mkEnv (process_env e) (script_dir e) (url_parses e) (createClient e) (auth_getUser e)
        (listBuckets e) f (getPublicUrl e) (download e) (list_ e)
        (http_get e) (now e) (isoNow e) (fmtBytes e) (unlink_fault e).
Definition withUnlinkFault (f : string → option Exn) (e : Env) : Env :=
  mkEnv (process_env e) (script_dir e) (url_parses e) (createClient e) (auth_getUser e)
        (listBuckets e) (upload e) (getPublicUrl e) (download e) (list_ e)
        (http_get e) (now e) (isoNow e) (fmtBytes e) f.

(** The endpoint variable holds a host name without a scheme. *)
Definition malformedEnv : Env :=
  withProcessEnv (<[ENV_SUPABASE_URL := "proj.supabase.co"]>
                    (<[ENV_SERVICE_KEY := "service-role-key"]> ∅)) sampleEnv.

(** A client library that takes whatever it is given as the path and names
    the object by its string form. *)
Definition lenientEnv : Env :=
  withUpload (fun _ path _ _ => Replies (Some (mkUploadData (JStr (toString path)))) None)
             sampleEnv.

(** An endpoint with a scheme other than http(s): [new URL] accepts it, and
    [http.get] refuses to create a request for it. *)
Definition ERR_INVALID_PROTOCOL : Exn :=
  TypeError ("Protocol " ++ DQ ++ "ftp:" ++ DQ ++ " not supported. Expected " ++
             DQ ++ "http:" ++ DQ).

Definition ftpEnv : Env :=
  mkEnv (<[ENV_SUPABASE_URL := "ftp://proj.supabase.co"]>
           (<[ENV_ANON_KEY := "anon-key"]> ∅))
        (script_dir sampleEnv)
        (fun s => isHttpUrl s || startsWith s "ftp://")
        (createClient sampleEnv) (auth_getUser sampleEnv) (listBuckets sampleEnv)
        (upload sampleEnv) (getPublicUrl sampleEnv) (download sampleEnv)
        (list_ sampleEnv)
        (fun protocol url timeout =>
           if startsWith url "ftp://" then GetThrows ERR_INVALID_PROTOCOL
           else http_get sampleEnv protocol url timeout)
        (now sampleEnv) (isoNow sampleEnv) (fmtBytes sampleEnv) (unlink_fault sampleEnv).

(** A peer that takes the connection and keeps the socket busy without ever
    completing a response: no response, no error and no timeout event. *)
Definition stallingEnv : Env :=
  mkEnv (process_env sampleEnv) (script_dir sampleEnv) (url_parses sampleEnv)
        (createClient sampleEnv) (auth_getUser sampleEnv) (listBuckets sampleEnv)
        (upload sampleEnv) (getPublicUrl sampleEnv) (download sampleEnv)
        (list_ sampleEnv) (fun _ _ _ => GetEvents [])
        (now sampleEnv) (isoNow sampleEnv) (fmtBytes sampleEnv) (unlink_fault sampleEnv).

(** ** Notions used in the statements *)

(** ASCII text, and two texts that differ at most in the case of their
    letters A-Z. *)
Definition isAscii (c : ascii) : bool := (nat_of_ascii c <? 128)%nat.

Fixpoint asciiText (s : string) : bool :=
  match s with
  | EmptyString => true
  | String c s' => isAscii c && asciiText s'
  end.

Definition isUpper (c : ascii) : bool :=
  ((65 <=? nat_of_ascii c) && (nat_of_ascii c <=? 90))%nat.

Definition caseVariant (a b : ascii) : bool :=
  Ascii.eqb a b ||
  (isUpper a && (nat_of_ascii b =? nat_of_ascii a + 32)%nat) ||
  (isUpper b && (nat_of_ascii a =? nat_of_ascii b + 32)%nat).

Fixpoint sameUpToCase (s s' : string) : bool :=
  match s, s' with
  | EmptyString, EmptyString => true
  | String a r, String b r' => caseVariant a b && sameUpToCase r r'
  | _, _ => false
  end.

(** What the first event of a request settles the promise to. *)
Definition settledBy (ev : ReqEvent) : ProbeResult :=
  match ev with
  | EvResponse status => mkProbe ((200 <=? status) && (status <? 400)) status None
  | EvError _ => mkProbe false 0 (Some "Network error")
  | EvTimeout => mkProbe false 0 (Some "Timeout")
  end.


(** What step 2 of the download test prints for a settled probe. *)
Definition probeReport (r : ProbeResult) : Console :=
  if accessible r
  then Log Success ("Public URL accessible (Status: " ++ pretty (statusCode r) ++ ").")
  else Log Warn ("Public URL check (Status: " ++ pretty (statusCode r) ++ ", Error: " ++
                 errorOr r "N/A" ++ "). RLS/CORS/private bucket?").

(** Replies of the first two steps of the connectivity test under which
    the handler gets to its third step: the session query rejects or carries
    data, and the bucket listing resolves to buckets or to an error the
    classifier accepts. *)
Definition authReplyOk (r : Reply UserData) : Prop :=
  match r with
  | Rejects _ => True
  | Replies d _ => is_Some d
  end.

Definition bucketsReplyOk (r : Reply (list Bucket)) : Prop :=
  match r with
  | Rejects _ => False
  | Replies _ (Some err) => ∃ h, getErrorHint err = inr h
  | Replies d None => is_Some d
  end.

(** The public-object base URL of the storage service at [u]. *)
Definition PUBLIC_BASE (u : string) : string := u ++ "/storage/v1/object/public/".

(** The lines of the third step. *)
Definition corsHeader : Console := Log Info (NL ++ "3. CORS Check (Public Storage Endpoint):").
Definition corsSuccess (p : ProbeResult) : Console :=
  Log Success ("Storage public endpoint seems accessible (Status: " ++
               pretty (statusCode p) ++ ").").
Definition corsWarn (p : ProbeResult) : Console :=
  Log Warn ("Storage public endpoint check (Status: " ++ pretty (statusCode p) ++
            ", Error: " ++ errorOr p "N/A" ++ "). Possible CORS issue.").
Definition corsTip : Console :=
  Log Tip "Verify CORS settings in Supabase Dashboard: Project Settings > API > Storage.".

(** The object path whose public URL the listing asks for. *)
Definition itemTarget (prefix : string) (item : Item) : string :=
  (if strTruthy prefix then prefix ++ "/" else "") ++ name item.

(** The public-URL requests of a listing: one per entry with an id. *)
Definition urlCalls (bucketName prefix : string) (data : list Item) : list Call :=
  map (fun it => CallGetPublicUrl bucketName (itemTarget prefix it))
      (filter (fun it => truthy (id it) = true) data).

(** The lines the listing prints for an entry. *)
Definition dirLine (item : Item) : Console :=
  Plain ((ICON_DIR ++ " " ++ name item) ++ " " ++ COLORS_dim ++ "(Directory)" ++
         COLORS_reset).
Definition fileLine (item : Item) (sizeText mime : string) : Console :=
  Plain ((ICON_FILE ++ " " ++ name item) ++ " " ++ COLORS_dim ++
         ("(" ++ sizeText ++ ", MIME: " ++ mime ++ ")") ++ COLORS_reset).
Definition urlLine (u : string) : Console :=
  Plain ("   " ++ COLORS_cyan ++ "URL: " ++ u ++ COLORS_reset).




(** * The rest of the script

    The handlers the ones above leave out: the custom upload, the bucket
    list, the full diagnostics, the exit action, the menu loop and the
    start-up. They need a few more answers from outside, gathered in
    [Host]. The two client calls only the diagnostics make (a listing with a
    limit alone, [remove]) answer from [Host] and are not entered in
    [calls]. *)

Definition COLORS_bright : string := ESC ++ "[1m".
Definition COLORS_red : string := ESC ++ "[31m".
Definition COLORS_green : string := ESC ++ "[32m".
Definition COLORS_yellow : string := ESC ++ "[33m".

Definition ICON_ROCKET : string := "ðŸš€".

(** The fields of a bucket object beyond its name and public flag. *)
Record BucketDetails := mkBucketDetails {
  bd_id : string;
  created_at : string;
  file_size_limit : option Z;
  allowed_mime_types : option (list string)
}.

Record Host := mkHost {
  bucket_details : Bucket → BucketDetails;
  toLocaleString : string → string;         (* new Date(s).toLocaleString() *)
  (* from(bucket).list(prefix, { limit }) *)
  list_limit : string → string → Z → Reply (list Item);
  remove : string → list string → Reply unit;
  dir_size : string → Z;                    (* fs.statSync(dir).size *)
  rm_fault : string → option Exn;           (* fs.rmSync of this tree throws *)
  (* which entries of the tree were already gone when it threw *)
  rm_partial : string → string → bool
}.

(** ** [path.extname] and the MIME table *)

Definition isDot (c : ascii) : bool := Ascii.eqb c "."%char.

(** The string before and after the last dot. *)
Fixpoint splitLastDot (s : string) : option (string * string) :=
  match s with
  | EmptyString => None
  | String c s' =>
    match splitLastDot s' with
    | Some (d, b) => Some (String c d, b)
    | None => if isDot c then Some (EmptyString, s') else None
    end
  end.

(** [path.extname]: from the last dot of the base name to its end; empty
    when the base name has no dot, starts with its only dot, or is "..". *)
Definition extname (p : string) : string :=
  match splitLastDot (Path.basename p) with
  | None => ""
  | Some (stem, e) =>
    if String.eqb stem "" then ""
    else if String.eqb stem "." && String.eqb e "" then ""
    else "." ++ e
  end.

(** The own properties of [MIME_TYPES_MAP]. An extension is empty or
    starts with a dot, so no inherited property is ever asked for. *)
Definition MIME_TYPES_MAP : gmap string string :=
  <[".jpg" := "image/jpeg"]> (
  <[".jpeg" := "image/jpeg"]> (
  <[".png" := "image/png"]> (
  <[".gif" := "image/gif"]> (
  <[".webp" := "image/webp"]> (
  <[".pdf" := "application/pdf"]> (
  <[".txt" := "text/plain"]> (
  <[".html" := "text/html"]> (
  <[".json" := "application/json"]> (
  <["default" := "application/octet-stream"]> ∅))))))))).

(** [MIME_TYPES_MAP[ext] || MIME_TYPES_MAP.default] for
    [ext = path.extname(filePath).toLowerCase()] *)
Definition guessContentType (filePath : string) : string :=
  let ext := toLowerCase (extname filePath) in
  toString (Js.or (match MIME_TYPES_MAP !! ext with Some t => JStr t | None => JUndefined end)
                  (match MIME_TYPES_MAP !! "default" with
                   | Some t => JStr t
                   | None => JUndefined
                   end)).

(** [Buffer] and file lengths in bytes. *)
Definition contentLength (c : Content) : Z :=
  match c with
  | Text s => Z.of_nat (String.length s)
  | Base64 b64 => base64Length b64
  end.

(** [l.join(sep)] *)
Fixpoint joinWith (sep : string) (l : list string) : string :=
  match l with
  | [] => ""
  | [x] => x
  | x :: l' => x ++ sep ++ joinWith sep l'
  end.

(** [q] is [p] or lies beneath it. *)
Definition within (p q : string) : bool :=
  String.eqb q p || startsWith q (p ++ "/").

(** An awaited client call of [Host]. *)
Definition liftReply {A} (r : Reply A) : M (option A * option ApiError) :=
  fun w =>
    match r with
    | Rejects e => (Throw e, w)
    | Replies d e => (Ret (d, e), w)
    end.

(** [rl.close()]: no further line is read. *)
Definition rlClose : M unit := fun w => (Ret tt, setStdin [] w).

(** The entries of the menu. *)
Inductive Action :=
| ActConnectivity | ActBuckets | ActText | ActImage | ActCustom
| ActFiles | ActDownload | ActDiagnostics | ActExit.

Definition menuTable : list (string * (string * Action)) :=
  [("1", ("Connection & Config Test", ActConnectivity));
   ("2", ("List Buckets", ActBuckets));
   ("3", ("Upload Test (Generated Text File)", ActText));
   ("4", ("Upload Test (Generated Image File)", ActImage));
   ("5", ("Upload Test (Custom Local File)", ActCustom));
   ("6", ("List Files in Bucket", ActFiles));
   ("7", ("Download Test", ActDownload));
   ("8", ("Full Diagnostics", ActDiagnostics));
   ("9", ("Exit", ActExit))].

(** The property names every object inherits from [Object.prototype]. *)
Definition OBJECT_PROTOTYPE_KEYS : list string :=
  ["constructor"; "__defineGetter__"; "__defineSetter__"; "hasOwnProperty";
   "__lookupGetter__"; "__lookupSetter__"; "isPrototypeOf"; "propertyIsEnumerable";
   "toString"; "valueOf"; "__proto__"; "toLocaleString"].

(** [menuActions[choice]]: an entry of the table, an inherited property
    (truthy, without a [func]), or undefined. *)
Inductive Selected :=
| Own (description : string) (action : Action)
| Inherited
| Missing.

Fixpoint assoc {A} (k : string) (l : list (string * A)) : option A :=
  match l with
  | [] => None
  | (k', v) :: l' => if String.eqb k k' then Some v else assoc k l'
  end.

Definition menuActions (choice : string) : Selected :=
  match assoc choice menuTable with
  | Some (d, a) => Own d a
  | None =>
    if existsb (String.eqb choice) OBJECT_PROTOTYPE_KEYS then Inherited else Missing
  end.

Section Session.

Variable env : Env.
Variable host : Host.

(** [fs.statSync(p).size] *)
Definition statSize (p : string) : M Z := fun w =>
  match files (fsys w) !! p with
  | Some c => (Ret (contentLength c), w)
  | None =>
    if bool_decide (p ∈ dirs (fsys w)) then (Ret (dir_size host p), w)
    else (Throw (ENOENT "stat" p), w)
  end.

(** [fs.rmSync(p, { recursive: true, force: true })]: the tree at [p] is
    removed entry by entry; a removal that throws has deleted some of the
    entries already. *)
Definition rmSync (p : string) : M unit := fun w =>
  match rm_fault host p with
  | Some e =>
    (Throw e,
     setFsys (mkFS (filter (fun d => within p d && rm_partial host p d = false)
                           (dirs (fsys w)))
                   (filter (fun kv => within p kv.1 && rm_partial host p kv.1 = false)
                           (files (fsys w)))) w)
  | None =>
    (Ret tt,
     setFsys (mkFS (filter (fun d => within p d = false) (dirs (fsys w)))
                   (filter (fun kv => within p kv.1 = false) (files (fsys w)))) w)
  end.

Definition pressEnterToContinue : M unit :=
  say (Plain (NL ++ COLORS_dim ++ "Press Enter to return to menu..." ++ COLORS_reset)) ;;;
  let* _a := ask "" in
  ret tt.

Definition handleCustomFileUpload : M unit :=
  say Clear ;;;
  say (Banner COLORS_blue "===" ("CUSTOM FILE UPLOAD ===" ++ NL)) ;;;
  let* filePath := ask "Enter FULL local file path:" in
  let* there := (if strTruthy filePath then existsSync filePath else ret false) in
  if negb there then logError ("File not found or path invalid: " ++ filePath)
  else
    let* bucketName := ask "Enter bucket name:" in
    if negb (strTruthy bucketName) then logError "Bucket name required."
    else
      let* fileStatsSize := statSize filePath in
      let guessedContentType := guessContentType filePath in
      let* answer := ask ("Enter content type (guessed: " ++ guessedContentType ++ "):") in
      let contentType := if strTruthy answer then answer else guessedContentType in
      let defaultFileName := Path.basename filePath in
      let* storagePathInput :=
        ask ("Enter storage path (default: " ++ DEFAULT_UPLOAD_PATH_PREFIX ++
             "/custom/" ++ defaultFileName ++ "):") in
      let storagePath :=
        if strTruthy storagePathInput then storagePathInput
        else DEFAULT_UPLOAD_PATH_PREFIX ++ "/custom/" ++ defaultFileName in
      let* _r := coreUploadProcessor env bucketName storagePath
                   (mkFileSource (Some filePath) None) contentType fileStatsSize in
      ret tt.

(** The callback of [data.forEach] in [showBuckets]. *)
Definition showBucket (b : Bucket) : M unit :=
  let d := bucket_details host b in
  say (Plain (COLORS_bright ++ "- Name: " ++ bucket_name b ++ COLORS_reset)) ;;;
  say (Plain ("  ID: " ++ bd_id d)) ;;;
  say (Plain ("  Public: " ++
              (if public b then COLORS_green ++ "Yes" ++ COLORS_reset
               else COLORS_yellow ++ "No" ++ COLORS_reset))) ;;;
  say (Plain ("  Created: " ++ toLocaleString host (created_at d))) ;;;
  say (Plain ("  File Size Limit: " ++
              match file_size_limit d with
              | Some n => if n =? 0 then "N/A" else formatBytes env n
              | None => "N/A"
              end)) ;;;
  say (Plain ("  Allowed MIME Types: " ++
              match allowed_mime_types d with
              | Some l => joinWith ", " l
              | None => "Any"
              end ++ NL)).

Definition showBuckets : M unit :=
  say Clear ;;;
  say (Banner COLORS_blue "===" ("STORAGE BUCKETS LIST ===" ++ NL)) ;;;
  tryCatch
    (let* _c := theClient "storage" in
     let* r := await CallListBuckets (listBuckets env) in
     match r with
     | (_, Some error) =>
       logError ("Failed to list buckets: " ++ toString (message error)) ;;;
       let* hint := liftE (getErrorHint error) in
       logTip hint
     | (None, None) =>
       throw (TypeError "Cannot read properties of null (reading 'length')")
     | (Some data, None) =>
       if (length data =? 0)%nat
       then logWarn "No buckets found. Create buckets in your Supabase dashboard."
       else
         logSuccess ("Found " ++ pretty (Z.of_nat (length data)) ++ " buckets:" ++ NL) ;;;
         forEach showBucket data
     end)
    (fun e => logError ("Unexpected error listing buckets: " ++ exn_message e)).

(** Part 1 of [fullDiagnostics]: environment and client status. *)
Definition diagStatus : M unit :=
  say (Banner COLORS_bright "1." "Environment & Client Status") ;;;
  let supUrl := getenv env ENV_SUPABASE_URL in
  let hasServKey := truthy (getenv env ENV_SERVICE_KEY) in
  let hasAnonKey := truthy (getenv env ENV_ANON_KEY) in
  say (Plain ("   " ++ ENV_SUPABASE_URL ++ ": " ++
              (if truthy supUrl
               then COLORS_green ++ "SET (" ++ toString supUrl ++ ")" ++ COLORS_reset
               else COLORS_red ++ "NOT SET" ++ COLORS_reset))) ;;;
  say (Plain ("   " ++ ENV_SERVICE_KEY ++ ": " ++
              (if hasServKey then COLORS_green ++ "SET" ++ COLORS_reset
               else COLORS_yellow ++ "NOT SET" ++ COLORS_reset))) ;;;
  say (Plain ("   " ++ ENV_ANON_KEY ++ ": " ++
              (if hasAnonKey then COLORS_green ++ "SET" ++ COLORS_reset
               else COLORS_yellow ++ "NOT SET" ++ COLORS_reset))) ;;;
  say (Plain ("   Using Key: " ++
              (if hasServKey then "Service Role (Optimal)"
               else if hasAnonKey then "Anon Key (Limited)"
               else "NONE (Critical!)"))) ;;;
  let* client := (fun w => (Ret (supabase w), w)) in
  match client with
  | Some _ => logSuccess "   Supabase client: Initialized."
  | None => logError "   Supabase client: NOT Initialized."
  end.

(** The body of the loop over the buckets in part 2. *)
Definition diagBucket (bucket : Bucket) : M unit :=
  say (Plain ("   - Bucket: " ++ COLORS_bright ++ bucket_name bucket ++ COLORS_reset ++
              " (Public: " ++ (if public bucket then "Yes" else "No") ++ ")")) ;;;
  let* _c := theClient "storage" in
  let* r := liftReply (list_limit host (bucket_name bucket) "" 1) in
  match r with
  | (_, Some fError) =>
    logWarn ("     List files in '" ++ bucket_name bucket ++ "': FAILED (" ++
             toString (message fError) ++ ")")
  | (Some files, None) =>
    logSuccess ("     List files in '" ++ bucket_name bucket ++ "': OK (" ++
                pretty (Z.of_nat (length files)) ++ " items at root)")
  | (None, None) =>
    throw (TypeError "Cannot read properties of null (reading 'length')")
  end.

(** Part 2 of [fullDiagnostics]: the buckets and a shallow listing of each,
    inside its [try]. *)
Definition diagBuckets : M unit :=
  say (Banner COLORS_bright (NL ++ "2.") "Bucket Overview & Basic Permissions") ;;;
  tryCatch
    (let* _c := theClient "storage" in
     let* r := await CallListBuckets (listBuckets env) in
     match r with
     | (_, Some bError) =>
       logError ("   Bucket listing failed: " ++ toString (message bError))
     | (None, None) =>
       throw (TypeError "Cannot read properties of null (reading 'length')")
     | (Some buckets, None) =>
       if (length buckets =? 0)%nat then logWarn "   No buckets found."
       else
         logSuccess ("   Found " ++ pretty (Z.of_nat (length buckets)) ++
                     " buckets. Testing basic ops:") ;;;
         forEach diagBucket buckets
     end)
    (fun e => logError ("   Bucket ops error: " ++ exn_message e)).

Definition DIAG_TEST_PATH : string :=
  DEFAULT_UPLOAD_PATH_PREFIX ++ "/diagnostics-rw-test.txt".

(** Part 3 of [fullDiagnostics]: upload, download and delete against the
    first bucket. It hands the name of that bucket to part 4. *)
Definition diagReadWrite : M (option string) :=
  say (Banner COLORS_bright (NL ++ "3.")
         "Storage Upload/Download Permission Test (using first available bucket)") ;;;
  let* _c := theClient "storage" in
  let* r := await CallListBuckets (listBuckets env) in
  (* bucketsList?.[0]?.name *)
  let targetBucket :=
    match fst r with
    | Some (b :: _) => Some (bucket_name b)
    | _ => None
    end in
  match targetBucket with
  | Some target =>
    if strTruthy target then
      logInfo ("   Using bucket '" ++ target ++ "' for R/W test.") ;;;
      let* testFile := prepareTestFile env "text" in
      match testFile with
      | Some testFile =>
        let testPath := DIAG_TEST_PATH in
        let* uploadResultPath :=
          coreUploadProcessor env target testPath
            (mkFileSource (Some (filePath testFile)) None)
            (tf_contentType testFile) (fileSize testFile) in
        (if truthy uploadResultPath then
           logInfo ("   Attempting to download test file: " ++ target ++ "/" ++ testPath) ;;;
           let* _c := theClient "storage" in
           let* d := await (CallDownload target testPath) (download env target testPath) in
           (match snd d with
            | Some dlError =>
              logError ("     Download test: FAILED (" ++ toString (message dlError) ++ ")")
            | None => logSuccess "     Download test: OK"
            end) ;;;
           logInfo ("   Attempting to delete test file: " ++ target ++ "/" ++ testPath) ;;;
           let* _c := theClient "storage" in
           let* rm := liftReply (remove host target [testPath]) in
           match snd rm with
           | Some rmError =>
             logWarn ("     Delete test: FAILED (" ++ toString (message rmError) ++
                      "). Manual cleanup may be needed.")
           | None => logSuccess "     Delete test: OK"
           end
         else
           logError ("   Upload portion of R/W test failed for bucket '" ++ target ++ "'.")) ;;;
        tryCatch (unlinkSync env (filePath testFile)) (fun _ => ret tt) ;;;
        ret targetBucket
      | None =>
        logError "   Could not prepare test file for R/W diagnostics." ;;;
        ret targetBucket
      end
    else
      logWarn "   No buckets available to perform R/W permission test." ;;;
      ret targetBucket
  | None =>
    logWarn "   No buckets available to perform R/W permission test." ;;;
    ret targetBucket
  end.

(** Part 4 of [fullDiagnostics]: the probe of an object that is not
    there. *)
Definition diagPublicUrl (targetBucket : option string) : M unit :=
  say (Banner COLORS_bright (NL ++ "4.") "CORS/Public URL Check") ;;;
  let supUrl := getenv env ENV_SUPABASE_URL in
  if truthy supUrl then
    let bucket := match targetBucket with
                  | Some b => if strTruthy b then b else "test-bucket"
                  | None => "test-bucket"
                  end in
    let storagePublicTestUrl :=
      toString supUrl ++ "/storage/v1/object/public/" ++ bucket ++
      "/nonexistent-test-file.txt" in
    logInfo ("   Pinging sample public URL: " ++ storagePublicTestUrl) ;;;
    let* r := checkUrl env storagePublicTestUrl in
    (if statusCode r =? 404 then
       logSuccess "   Public URL endpoint seems responsive (expected 404 for test file)."
     else if 0 <? statusCode r then
       logWarn ("   Public URL endpoint check returned status " ++ pretty (statusCode r) ++
                ". Might indicate CORS/config issues.")
     else
       logError ("   Public URL endpoint check FAILED (Error: " ++ errorOr r "Unknown" ++
                 "). Likely CORS or network issue.")) ;;;
    logTip "   Ensure your Supabase project's CORS settings (Dashboard > Project Settings > API > Storage) include your origin or '*' for testing."
  else logWarn "   Supabase URL not set, cannot perform full CORS/Public URL check.".

Definition fullDiagnostics : M unit :=
  say Clear ;;;
  say (Banner COLORS_blue "===" ("ADVANCED DIAGNOSTICS ===" ++ NL)) ;;;
  diagStatus ;;;
  diagBuckets ;;;
  let* targetBucket := diagReadWrite in
  diagPublicUrl targetBucket.

(** [menuActions[9].func] *)
Definition exitAction : M unit :=
  say (Banner COLORS_blue "===" "Exiting Supabase Storage Debug Tool. ===") ;;;
  rlClose ;;;
  let* there := existsSync (TEMP_DIR_PATH env) in
  if there then
    tryCatch
      (rmSync (TEMP_DIR_PATH env) ;;;
       logInfo "Temporary directory cleaned up.")
      (fun e => logWarn ("Could not fully clean up temp directory " ++
                         TEMP_DIR_PATH env ++ ": " ++ exn_message e))
  else ret tt.

Definition runAction (a : Action) : M unit :=
  match a with
  | ActConnectivity => checkConnectivity env
  | ActBuckets => showBuckets
  | ActText => handleGeneratedFileUpload env "text"
  | ActImage => handleGeneratedFileUpload env "image"
  | ActCustom => handleCustomFileUpload
  | ActFiles => showBucketFiles env
  | ActDownload => checkDownload env
  | ActDiagnostics => fullDiagnostics
  | ActExit => exitAction
  end.

(** One round of [mainLoop]: the menu, the choice and the action chosen;
    [again] stands for the call of [mainLoop] by itself. *)
Definition menuRound (again : M unit) : M unit :=
  say Clear ;;;
  say (Banner COLORS_blue "===" "SUPABASE STORAGE DEBUGGER v1.0 ===") ;;;
  say (Banner COLORS_bright (NL ++ "Select an operation:") COLORS_reset) ;;;
  forEach (fun e : string * (string * Action) =>
             say (Plain (COLORS_yellow ++ e.1 ++ "." ++ COLORS_reset ++ " " ++ e.2.1)))
          menuTable ;;;
  let* choice := ask (NL ++ "Your choice:") in
  match menuActions choice with
  | Own _ action =>
    runAction action ;;;
    if negb (String.eqb choice "9")
    then pressEnterToContinue ;;; again
    else ret tt
  | Inherited => throw (TypeError "selectedAction.func is not a function")
  | Missing =>
    logWarn "Invalid selection. Try again." ;;;
    pressEnterToContinue ;;;
    again
  end.

(** The menu loop. Every round reads at least the choice, so [fuel] above
    the number of lines left on standard input is never used up. *)
Fixpoint mainLoop (fuel : nat) : M unit :=
  match fuel with
  | O => fun w => (Hang, w)
  | S fuel' => menuRound (mainLoop fuel')
  end.

Definition start : M unit :=
  say Clear ;;;
  say (Banner COLORS_blue ICON_ROCKET "Supabase Storage Debug Tool Initializing...") ;;;
  let* ok := validateEnvAndInitClient env in
  if negb ok then
    logError "Setup failed. Cannot proceed. Please check your .env file and Supabase project status." ;;;
    rlClose
  else fun w => mainLoop (S (length (stdin w))) w.

End Session.

(** A host for the sample session. *)
Definition sampleHost : Host := {|
  bucket_details := fun _ =>
    mkBucketDetails "avatars" "2024-01-01T00:00:00.000Z" (Some 1048576) None;
  toLocaleString := fun s => s;
  list_limit := fun _ _ _ => Replies (Some []) None;
  remove := fun _ _ => Replies (Some tt) None;
  dir_size := fun _ => 4096;
  rm_fault := fun _ => None;
  rm_partial := fun _ _ => false
|}.

(** A host on which the temp directory cannot be removed: its files go, the
    directory itself is busy. *)
Definition busyHost : Host :=
  mkHost (bucket_details sampleHost) (toLocaleString sampleHost) (list_limit sampleHost)
         (remove sampleHost) (dir_size sampleHost)
         (fun p => Some (mkExn ("EBUSY: resource busy or locked, rmdir '" ++ p ++ "'")))
         (fun p q => negb (String.eqb q p)).

(** ** More sample sessions *)

(** The service answers every upload with an error. *)
Definition refusingEnv : Env :=
  withUpload (fun _ _ _ _ => Replies None (Some (mkApiError (JStr "Bucket not found"))))
             sampleEnv.

(** The client hands back a public URL that is not an http(s) URL. *)
Definition oddUrlEnv : Env :=
  mkEnv (process_env lenientEnv) (script_dir lenientEnv) (url_parses lenientEnv)
        (createClient lenientEnv) (auth_getUser lenientEnv) (listBuckets lenientEnv)
        (upload lenientEnv) (fun _ _ => Some (mkUrlData (Some "about:blank")))
        (download lenientEnv) (list_ lenientEnv) (http_get lenientEnv) (now lenientEnv)
        (isoNow lenientEnv) (fmtBytes lenientEnv) (unlink_fault lenientEnv).

Definition sampleSource : FileSource := mkFileSource (Some "/tmp/a.txt") None.

(** ** Invariants of a run

    [post R Q m]: from every world, [m] leaves a world related to it by [R]
    and, when it returns, a value satisfying [Q]. *)
Definition post {A} (R : World → World → Prop) (Q : A → Prop) (m : M A) : Prop :=
  ∀ w, R w (snd (m w)) ∧ ∀ a, fst (m w) = Ret a → Q a.

Definition anyValue {A} : A → Prop := fun _ => True.

(** The global client handle is what it was. *)
Definition sameClient (w w' : World) : Prop := supabase w' = supabase w.

(** What is left on standard input is the end of what was there. *)
Definition inputConsumed (w w' : World) : Prop := suffix (stdin w') (stdin w).

(** Nothing happened to the files and directories that are neither the
    temp directory nor beneath it. *)
Definition outsideTempKept (env : Env) (w w' : World) : Prop :=
  ∀ p, within (TEMP_DIR_PATH env) p = false →
       files (fsys w') !! p = files (fsys w) !! p ∧
       (p ∈ dirs (fsys w') ↔ p ∈ dirs (fsys w)).

(** The payload descriptor, when there is one, names a file directly in the
    temp directory. *)
Definition inTempDir (env : Env) (tf : option TestFile) : Prop :=
  ∀ t, tf = Some t → ∃ x, filePath t = Path.join (TEMP_DIR_PATH env) x.

(** A session in which a download has left its copy in the temp
    directory. *)
Definition usedWorld (input : list string) : World := {|
  supabase := Some (mkClient SAMPLE_URL "service-role-key");
  console := [];
  fsys := mkFS ({[ "/home/dev/tool/supabase-debug-temp" ]} ∪ {[ "/home/dev/tool" ]})
               (<["/home/dev/tool/supabase-debug-temp/download_a.txt" := Text "hello"]>
                  (<["/home/dev/tool/notes.txt" := Text "keep"]> ∅));
  calls := [];
  stdin := input;
  ticks := 0
|}.

(** No key is set. *)
Definition keylessEnv : Env :=
  withProcessEnv (<[ENV_SUPABASE_URL := SAMPLE_URL]> ∅) sampleEnv.

(** A console line that is not a prompt. *)
Definition isLog (c : Console) : Prop :=
  match c with
  | Log _ _ | Banner _ _ _ | Clear => True
  | _ => False
  end.

(** A handler gave up on an answer: it printed [msg] last and returned,
    with the files and the record of calls as they were. *)
Definition gaveUp (w : World) (rest : list string) (msg : string)
    (r : outcome unit * World) : Prop :=
  fst r = Ret tt ∧ fsys (snd r) = fsys w ∧ calls (snd r) = calls w ∧
  stdin (snd r) = rest ∧ last (console (snd r)) = Some (Log Error msg).

(** The first line [showBuckets] prints for a bucket. *)
Definition bucketLine (b : Bucket) : Console :=
  Plain (COLORS_bright ++ "- Name: " ++ bucket_name b ++ COLORS_reset).

(** The session [e] with another answer to [listBuckets]. *)
Definition withListBuckets (r : Reply (list Bucket)) (e : Env) : Env :=
  mkEnv (process_env e) (script_dir e) (url_parses e) (createClient e) (auth_getUser e)
        r (upload e) (getPublicUrl e) (download e) (list_ e) (http_get e)
        (now e) (isoNow e) (fmtBytes e) (unlink_fault e).

(** * Properties *)

Example getErrorHint_jwt :
  getErrorHint (mkApiError (JStr "Invalid JWT, bucket not found")) = inr HINT_AUTH.
Proof. reflexivity. Qed.

Example getErrorHint_number :
  getErrorHint (mkApiError (JNum 42)) =
  inl (TypeError "error.message?.toLowerCase is not a function").
Proof. reflexivity. Qed.

(** ** Strings *)

Lemma toLowerCase_app (a b : string) :
  toLowerCase (a ++ b) = toLowerCase a ++ toLowerCase b.
Proof.
  induction a as [|c a IH]; [reflexivity|].
  change (String c a ++ b) with (String c (a ++ b)).
  simpl. now rewrite IH.
Qed.

Lemma startsWith_app (k rest : string) : startsWith (k ++ rest) k = true.
Proof.
  induction k as [|c k IH]; [reflexivity|].
  change (String c k ++ rest) with (String c (k ++ rest)).
  simpl. now rewrite Ascii.eqb_refl.
Qed.

Lemma includes_startsWith (s k : string) :
  startsWith s k = true → includes s k = true.
Proof. destruct s; simpl; intros ->; reflexivity. Qed.

Lemma includes_app (a k b : string) : includes (a ++ k ++ b) k = true.
Proof.
  induction a as [|c a IH].
  - change ("" ++ k ++ b) with (k ++ b).
    apply includes_startsWith, startsWith_app.
  - change (String c a ++ k ++ b) with (String c (a ++ k ++ b)).
    simpl. rewrite IH. apply orb_true_r.
Qed.

Lemma message_or_empty (s : string) :
  match Js.or (JStr s) (JStr "") with JStr s0 => s0 | _ => "" end = s.
Proof.
  unfold Js.or, truthy.
  destruct (String.eqb_spec s ""); subst; reflexivity.
Qed.

(** ** C3, C10: the error hint classifier *)

(** C3. A message that contains "unauthorized" in any casing, whatever
    comes before and after it, gets the auth hint: the auth group is tested
    first. *)
Theorem getErrorHint_unauthorized (before word after : string) :
  toLowerCase word = "unauthorized" →
  getErrorHint (mkApiError (JStr (before ++ word ++ after))) = inr HINT_AUTH.
Proof.
  intros Hword.
  unfold getErrorHint, messageLower, message.
  rewrite message_or_empty, !toLowerCase_app, Hword, includes_app.
  reflexivity.
Qed.

Lemma getErrorHint_unauthorized_witness :
  toLowerCase "UnAuthorized" = "unauthorized" ∧
  getErrorHint (mkApiError
    (JStr ("Bucket not found: " ++ "UnAuthorized" ++ " (timeout, limit, already exists)")))
  = inr HINT_AUTH.
Proof.
  split; [reflexivity|].
  apply (getErrorHint_unauthorized "Bucket not found: " "UnAuthorized"
           " (timeout, limit, already exists)").
  reflexivity.
Defined.

(** C10. An error object whose message is null or undefined gets the
    fallback hint, which quotes "Unknown Supabase error"; the classifier does
    not throw on it. *)
Theorem getErrorHint_missing_message (error : ApiError) :
  message error = JUndefined ∨ message error = JNull →
  getErrorHint error =
    inr ("Consult Supabase docs for: " ++ DQ ++ "Unknown Supabase error" ++ DQ) ∧
  ∃ hint, getErrorHint error = inr hint ∧ includes hint "Unknown Supabase error" = true.
Proof.
  intros H.
  assert (E : getErrorHint error =
              inr ("Consult Supabase docs for: " ++ DQ ++ "Unknown Supabase error" ++ DQ)).
  { unfold getErrorHint. destruct H as [-> | ->]; reflexivity. }
  split; [exact E|].
  eexists; split; [exact E|]. reflexivity.
Qed.

Lemma getErrorHint_missing_message_witness :
  getErrorHint (mkApiError JNull) =
    inr ("Consult Supabase docs for: " ++ DQ ++ "Unknown Supabase error" ++ DQ) ∧
  ∃ hint, getErrorHint (mkApiError JNull) = inr hint ∧
          includes hint "Unknown Supabase error" = true.
Proof.
  apply (getErrorHint_missing_message (mkApiError JNull)).
  right; reflexivity.
Defined.

(** ** C2: the reachability probe *)

Lemma fold_onEvent_resolved (evs : list ReqEvent) (v : ProbeResult) :
  fold_left onEvent evs (Resolved v) = Resolved v.
Proof.
  induction evs as [|ev evs IH]; [reflexivity|].
  destruct ev; simpl; exact IH.
Qed.

Lemma checkUrl_first_event (env : Env) (url : string) (w : World)
    (ev : ReqEvent) (evs : list ReqEvent) :
  http_get env (protocolOf url) url 5000 = GetEvents (ev :: evs) →
  checkUrl env url w =
    (Ret (settledBy ev), record (CallHttpGet (protocolOf url) url 5000) w).
Proof.
  intros H. unfold checkUrl. rewrite H.
  destruct ev; simpl; rewrite fold_onEvent_resolved; reflexivity.
Qed.

(** C2, as the code has it. When creating the request does not throw and
    the request emits at least one event, the probe resolves, to the value
    its first event decides: a response gives accessible = (200 <= status <
    400) with that status and no error, an error event gives {false, 0,
    "Network error"}, a timeout event gives {false, 0, "Timeout"}. *)
Theorem checkUrl_resolves (env : Env) (url : string) (w : World)
    (ev : ReqEvent) (evs : list ReqEvent) :
  http_get env (protocolOf url) url 5000 = GetEvents (ev :: evs) →
  ∃ r w', checkUrl env url w = (Ret r, w') ∧
    match ev with
    | EvResponse status =>
      r = mkProbe ((200 <=? status) && (status <? 400)) status None
    | EvError _ => r = mkProbe false 0 (Some "Network error")
    | EvTimeout => r = mkProbe false 0 (Some "Timeout")
    end.
Proof.
  intros H. eexists _, _. split.
  - apply (checkUrl_first_event env url w ev evs H).
  - destruct ev; reflexivity.
Qed.

Lemma checkUrl_resolves_witness :
  ∃ r w', checkUrl sampleEnv "https://proj.supabase.co/x" bootWorld = (Ret r, w') ∧
          r = mkProbe ((200 <=? 200) && (200 <? 400)) 200 None.
Proof.
  apply (checkUrl_resolves sampleEnv "https://proj.supabase.co/x" bootWorld
           (EvResponse 200) []).
  reflexivity.
Defined.

(** C2 as stated fails. The endpoint [ftp://proj.supabase.co] is an absolute
    URL: start-up validation parses it with [new URL], builds the client and
    probes it; [http.get] throws on its scheme inside the executor of the
    promise, and the probe rejects. And a request that emits neither a
    response, nor an error, nor a timeout leaves the promise pending: the
    probe does not resolve. *)
Lemma checkUrl_rejects_absolute_url :
  url_parses ftpEnv "ftp://proj.supabase.co" = true ∧
  calls (snd (validateEnvAndInitClient ftpEnv bootWorld)) =
    [CallCreateClient "ftp://proj.supabase.co" "anon-key";
     CallHttpGet Http "ftp://proj.supabase.co" 5000] ∧
  fst (checkUrl ftpEnv "ftp://proj.supabase.co" bootWorld) = Throw ERR_INVALID_PROTOCOL ∧
  fst (checkUrl stallingEnv "https://proj.supabase.co" bootWorld) = Hang.
Proof. repeat split; vm_compute; reflexivity. Qed.

(** ** C4: start-up validation *)

(** C4. With the endpoint URL set but not parsable, validation returns
    false, no client is built (no call reaches the library) and the global
    handle is what it was. *)
Theorem validate_rejects_malformed_url (env : Env) (w : World) (u : string) :
  process_env env !! ENV_SUPABASE_URL = Some u →
  url_parses env u = false →
  ∃ w', validateEnvAndInitClient env w = (Ret false, w') ∧
        supabase w' = supabase w ∧ calls w' = calls w.
Proof.
  intros Hu Hbad.
  unfold validateEnvAndInitClient, getenv. rewrite Hu.
  unfold bind, tryCatch, logInfo, logError, logSuccess, logWarn, say, ret, newURL, throw.
  cbn [truthy toString negb].
  destruct (String.eqb u ""); cbn [negb]; rewrite ?Hbad;
    destruct (truthy (Js.or _ _)); cbn [negb];
    try destruct (truthy _); cbn [negb];
    eexists; (split; [reflexivity|split; reflexivity]).
Qed.

Lemma validate_rejects_malformed_url_witness :
  ∃ w', validateEnvAndInitClient malformedEnv bootWorld = (Ret false, w') ∧
        supabase w' = supabase bootWorld ∧ calls w' = calls bootWorld.
Proof.
  apply (validate_rejects_malformed_url malformedEnv bootWorld "proj.supabase.co").
  - vm_compute. reflexivity.
  - reflexivity.
Defined.

(** ** Reasoning about runs *)

Ltac unfold_m :=
  unfold bind, tryCatch, await, liftE, theClient, dateNow, logInfo, logError,
    logSuccess, logWarn, logTip, say, ret, throw in *.

Lemma getErrorHint_string (s : string) : ∃ h, getErrorHint (mkApiError (JStr s)) = inr h.
Proof.
  unfold getErrorHint, messageLower, message.
  repeat match goal with |- context [if ?b then _ else _] => destruct b end; eauto.
Qed.

Lemma getErrorHint_exn (e : Exn) : ∃ h, getErrorHint (errorOfExn e) = inr h.
Proof. apply getErrorHint_string. Qed.

Lemma checkUrl_world (env : Env) (url : string) (w : World) :
  snd (checkUrl env url w) = record (CallHttpGet (protocolOf url) url 5000) w.
Proof.
  unfold checkUrl.
  destruct (http_get env _ _ _) as [e|evs]; [reflexivity|].
  destruct (fold_left onEvent evs Pending); reflexivity.
Qed.


#[local] Arguments getErrorHint : simpl never.
#[local] Arguments formatBytes : simpl never.
#[local] Arguments checkUrl : simpl never.

(** The classifier is total on a thrown error. *)
Ltac hint_total :=
  match goal with
  | |- context [getErrorHint (errorOfExn ?e)] =>
    let h := fresh "h" in destruct (getErrorHint_exn e) as [h ->]
  end.


(** Name the outcome of the probe of [u] from world [w]. *)
Ltac probe env u w :=
  let o := fresh "o" in let w1 := fresh "w" in let E := fresh "E" in
  let Hw := fresh "Hw" in
  pose proof (checkUrl_world env u w) as Hw;
  destruct (checkUrl env u w) as [o w1] eqn:E;
  cbn in Hw; subst w1.

(** ** C1: the upload *)


Lemma uploadSource_not_string (fileSource : FileSource) (p : string) :
  uploadSource fileSource ≠ JStr p.
Proof.
  unfold uploadSource.
  destruct (src_path fileSource) as [q|]; [destruct (strTruthy q)|];
    try discriminate; destruct (src_buffer fileSource); discriminate.
Qed.

(** C1, where the code departs from it. Uploading the local file
    [/tmp/a.txt] to the target path [docs/a.txt] of bucket [avatars]: the
    call to [upload] carries the file stream as the path and the target path
    as the body. With a library that insists on a string path the upload
    throws and the processor returns null; with one that takes the path as
    it comes the upload succeeds and the stored path printed and returned is
    the string form of the stream, not the target path. *)
Theorem coreUploadProcessor_swaps_path_and_body :
  let source := mkFileSource (Some "/tmp/a.txt") None in
  let strict := coreUploadProcessor sampleEnv "avatars" "docs/a.txt" source
                  "text/plain" 10 (freshWorld []) in
  let lenient := coreUploadProcessor lenientEnv "avatars" "docs/a.txt" source
                   "text/plain" 10 (freshWorld []) in
  calls (snd strict) =
    [CallUpload "avatars" (JStream "/tmp/a.txt") (JStr "docs/a.txt")
                (mkFileOptions "text/plain" "3600" true)] ∧
  fst strict = Ret JNull ∧
  fst lenient = Ret (JStr "[object Object]") ∧
  fst lenient ≠ Ret (JStr "docs/a.txt") ∧
  Log Success "Upload SUCCEEDED in 25ms. Path: [object Object]" ∈ console (snd lenient).
Proof.
  cbv zeta. repeat split; try (vm_compute; reflexivity).
  - vm_compute. discriminate.
  - vm_compute. apply list_elem_of_In. simpl. tauto.
Qed.

Lemma strTruthy_ne (s : string) : s ≠ "" → strTruthy s = true.
Proof.
  intros H. unfold strTruthy. destruct (String.eqb_spec s ""); [contradiction|reflexivity].
Qed.

#[local] Arguments Path.basename : simpl never.
#[local] Arguments Path.parent : simpl never.
#[local] Arguments Path.join : simpl never.
#[local] Arguments TEMP_DIR_PATH : simpl never.

(** ** C6: the download test *)

(** Step 1 always returns: a rejected download, an error reply, a missing
    blob and a failed write of the inspection copy are all caught or
    reported inside it. *)
Lemma downloadStep_returns (env : Env) (bucketName filePath : string)
    (w : World) (c : Client) :
  supabase w = Some c →
  ∃ w', downloadStep env bucketName filePath w = (Ret tt, w') ∧
        supabase w' = supabase w ∧ stdin w' = stdin w ∧
        calls w' = (calls w ++ [CallDownload bucketName filePath])%list.
Proof.
  intros Hc. unfold downloadStep, writeFileSync. unfold_m. cbn. rewrite Hc. cbn.
  destruct (download env bucketName filePath) as [e|blob [err|]]; cbn.
  - eexists; repeat split; reflexivity || assumption.
  - destruct (getErrorHint err); cbn; eexists; repeat split; reflexivity || assumption.
  - destruct blob as [b|]; cbn.
    + destruct (bool_decide _); cbn; eexists; repeat split; reflexivity || assumption.
    + eexists; repeat split; reflexivity || assumption.
Qed.

Lemma publicUrlStep_asks (env : Env) (bucketName filePath : string)
    (w : World) (c : Client) :
  supabase w = Some c →
  ∃ l, calls (snd (publicUrlStep env bucketName filePath w)) =
       (calls w ++ CallGetPublicUrl bucketName filePath :: l)%list.
Proof.
  intros Hc. unfold publicUrlStep. unfold_m. cbn. rewrite Hc. cbn.
  destruct (getPublicUrl env bucketName filePath) as [[[u|]]|]; cbn.
  2,3: eexists; reflexivity.
  destruct (strTruthy u); cbn.
  2: eexists; reflexivity.
  match goal with |- context [checkUrl env u ?w0] => probe env u w0 end.
  destruct o as [r|e|]; [destruct (accessible r)| |];
    cbn; rewrite <- app_assoc; eexists; reflexivity.
Qed.

Lemma publicUrlStep_probes (env : Env) (bucketName filePath u : string)
    (w : World) (c : Client) :
  supabase w = Some c →
  getPublicUrl env bucketName filePath = Some (mkUrlData (Some u)) →
  u ≠ "" →
  let r := publicUrlStep env bucketName filePath w in
  calls (snd r) = (calls w ++ [CallGetPublicUrl bucketName filePath;
                               CallHttpGet (protocolOf u) u 5000])%list ∧
  ∀ ev evs, http_get env (protocolOf u) u 5000 = GetEvents (ev :: evs) →
    fst r = Ret tt ∧ last (console (snd r)) = Some (probeReport (settledBy ev)).
Proof.
  intros Hc Hu Hne. unfold publicUrlStep. unfold_m. cbn. rewrite Hc. cbn.
  rewrite Hu. cbn. rewrite (strTruthy_ne _ Hne). cbn. split.
  - match goal with |- context [checkUrl env u ?w0] => probe env u w0 end.
    destruct o as [r|e|]; [destruct (accessible r)| |];
      cbn; rewrite <- app_assoc; reflexivity.
  - intros ev evs Hev.
    match goal with |- context [checkUrl env u ?w0] =>
      rewrite (checkUrl_first_event env u w0 ev evs Hev) end.
    unfold probeReport. destruct (accessible (settledBy ev)); cbn;
      (split; [reflexivity|apply last_snoc]).
Qed.

#[local] Arguments downloadStep : simpl never.
#[local] Arguments publicUrlStep : simpl never.

(** C6. With a bucket name and an object path given, the download call
    is followed by the request for the public URL whatever the download did
    (resolved with a blob, resolved with an error, rejected); when there is a
    public URL it is probed, and when the probe settles the handler returns
    normally with the probe's outcome as its last line, a success or a
    warning. *)
Theorem checkDownload_always_probes (env : Env) (w : World) (c : Client)
    (bucketName filePath : string) (rest : list string) :
  supabase w = Some c →
  stdin w = bucketName :: filePath :: rest →
  bucketName ≠ "" → filePath ≠ "" →
  let r := checkDownload env w in
  (∃ l, calls (snd r) =
     (calls w ++ CallDownload bucketName filePath ::
                 CallGetPublicUrl bucketName filePath :: l)%list) ∧
  ∀ u, getPublicUrl env bucketName filePath = Some (mkUrlData (Some u)) → u ≠ "" →
    calls (snd r) =
      (calls w ++ [CallDownload bucketName filePath;
                   CallGetPublicUrl bucketName filePath;
                   CallHttpGet (protocolOf u) u 5000])%list ∧
    ∀ ev evs, http_get env (protocolOf u) u 5000 = GetEvents (ev :: evs) →
      fst r = Ret tt ∧ last (console (snd r)) = Some (probeReport (settledBy ev)).
Proof.
  intros Hc Hin Hb Hf.
  unfold checkDownload, ask. unfold_m. cbn.
  rewrite Hin. cbn. rewrite (strTruthy_ne _ Hb). cbn.
  rewrite (strTruthy_ne _ Hf). cbn.
  match goal with |- context [downloadStep env bucketName filePath ?w0] =>
    destruct (downloadStep_returns env bucketName filePath w0 c Hc)
      as (w1 & -> & Hs & _ & Hcalls) end.
  cbn in Hs, Hcalls. rewrite Hc in Hs.
  destruct (publicUrlStep env bucketName filePath w1) as [o w2] eqn:E. 
  split.
  - destruct (publicUrlStep_asks env bucketName filePath w1 c Hs) as [l Hl].
    rewrite E in Hl. cbn in Hl |- *. destruct o; cbn; rewrite Hl, Hcalls, <- app_assoc;
    eexists; reflexivity.
  - intros u Hu Hne.
    destruct (publicUrlStep_probes env bucketName filePath u w1 c Hs Hu Hne) as [Hl Hev].
    rewrite E in Hl, Hev. cbn in Hl, Hev. split.
    + destruct o; cbn; rewrite Hl, Hcalls, <- app_assoc; reflexivity.
    + intros ev evs H. destruct (Hev ev evs H) as [-> Hlast]. cbn. split; [reflexivity|assumption].
Qed.

Lemma checkDownload_always_probes_witness :
  let r := checkDownload sampleEnv (freshWorld ["avatars"; "missing.txt"]) in
  fst r = Ret tt ∧
  (Log Tip HINT_NOT_FOUND ∈ console (snd r)) ∧
  last (console (snd r)) = Some (probeReport (settledBy (EvResponse 200))).
Proof.
  destruct (checkDownload_always_probes sampleEnv (freshWorld ["avatars"; "missing.txt"])
              (mkClient SAMPLE_URL "service-role-key") "avatars" "missing.txt" [])
    as [_ H]; [reflexivity|reflexivity|discriminate|discriminate|].
  destruct (H (SAMPLE_URL ++ "/storage/v1/object/public/avatars/missing.txt"))
    as [_ H2]; [reflexivity|discriminate|].
  destruct (H2 (EvResponse 200) []) as [H3 H4]; [reflexivity|].
  split; [exact H3|split; [|exact H4]].
  vm_compute. apply list_elem_of_In. simpl. tauto.
Defined.

(** ** C9: the temp directory and the inspection copy *)

(** The payload preparation creates the temp directory when it is not
    there. *)
Lemma prepareTestFile_creates_dir (env : Env) (type : string) (w : World) :
  TEMP_DIR_PATH env ∈ dirs (fsys (snd (prepareTestFile env type w))) ∨
  is_Some (files (fsys w) !! TEMP_DIR_PATH env).
Proof.
  unfold prepareTestFile, existsSync, mkdirSync, writeFileSync. unfold_m. cbn.
  destruct (bool_decide (TEMP_DIR_PATH env ∈ dirs (fsys w))) eqn:Hd; cbn.
  - apply bool_decide_eq_true in Hd. left.
    repeat (match goal with |- context [if ?b then _ else _] => destruct b end; cbn);
      assumption.
  - destruct (bool_decide (is_Some _)) eqn:Hf; cbn.
    + apply bool_decide_eq_true in Hf. right. assumption.
    + left.
      repeat (match goal with |- context [if ?b then _ else _] => destruct b end; cbn);
        set_solver.
Qed.

(** C9, where the code departs from it. In a session in which the temp
    directory does not exist yet, a download that succeeds is followed by a
    failed write of the inspection copy: the download step does not create
    the directory, the write throws ENOENT, and the handler reports a
    critical download exception; no copy is left. After the payload
    preparation has created the directory, the same download leaves its
    copy. *)
Theorem checkDownload_inspection_copy_needs_temp_dir :
  let w := freshWorld ["avatars"; "docs/a.txt"] in
  let copy := "/home/dev/tool/supabase-debug-temp/download_a.txt" in
  let r := checkDownload sampleEnv w in
  let prepared := setStdin ["avatars"; "docs/a.txt"]
                    (snd (prepareTestFile sampleEnv "text" w)) in
  download sampleEnv "avatars" "docs/a.txt" = Replies (Some sampleBlob) None ∧
  (TEMP_DIR_PATH sampleEnv ∉ dirs (fsys w)) ∧
  (Log Success "Download SUCCEEDED in 25ms. Size: 5 Bytes, Type: text/plain"
     ∈ console (snd r)) ∧
  (Log Error ("Critical download exception: ENOENT: no such file or directory, open '"
              ++ copy ++ "'") ∈ console (snd r)) ∧
  files (fsys (snd r)) !! copy = None ∧
  files (fsys (snd (checkDownload sampleEnv prepared))) !! copy = Some (Text "hello").
Proof.
  cbv zeta. repeat split; try (vm_compute; reflexivity).
  - intros H.
    change (TEMP_DIR_PATH sampleEnv ∈ ({[ "/home/dev/tool" ]} : gset string)) in H.
    apply elem_of_singleton in H. vm_compute in H. discriminate H.
  - vm_compute. apply list_elem_of_In. simpl. tauto.
  - vm_compute. apply list_elem_of_In. simpl. tauto.
Qed.

(** ** C7: the connectivity test *)

#[local] Arguments corsCheckStep : simpl never.
#[local] Arguments strictEq : simpl never.

Lemma checkConnectivity_reaches_step3 (env : Env) (w : World) (c : Client) :
  supabase w = Some c →
  authReplyOk (auth_getUser env) →
  bucketsReplyOk (listBuckets env) →
  ∃ w1, checkConnectivity env w = corsCheckStep env w1.
Proof.
  intros Hc Ha Hb. unfold checkConnectivity. unfold_m. cbn. rewrite Hc. cbn.
  unfold authReplyOk, bucketsReplyOk in *.
  destruct (listBuckets env) as [?|bs [berr|]]; [contradiction| |].
  - destruct Hb as [h Hh]. destruct bs.
    all: destruct (auth_getUser env) as [e|[d|] uerr]; cbn; [| |destruct Ha; discriminate].
    all: try (destruct (negb (strictEq _ _)); cbn; rewrite Hh; cbn; eexists; reflexivity).
    all: destruct uerr as [ue|]; cbn; [destruct (negb (strictEq _ _)); cbn|];
        try destruct (user d); cbn; rewrite Hh; cbn; eexists; reflexivity.
  - destruct Hb as [b ->].
    destruct (auth_getUser env) as [e|[d|] uerr]; cbn; [| |destruct Ha; discriminate].
    + destruct (negb (strictEq _ _)); cbn; eexists; reflexivity.
    + destruct uerr as [ue|]; cbn; [destruct (negb (strictEq _ _)); cbn|];
        try destruct (user d); cbn; eexists; reflexivity.
Qed.

Lemma corsCheckStep_report (env : Env) (w : World) (u : string)
    (ev : ReqEvent) (evs : list ReqEvent) :
  process_env env !! ENV_SUPABASE_URL = Some u → u ≠ "" →
  http_get env (protocolOf (PUBLIC_BASE u)) (PUBLIC_BASE u) 5000 = GetEvents (ev :: evs) →
  let p := settledBy ev in
  ∃ w', corsCheckStep env w = (Ret tt, w') ∧
    console w' = (console w ++ corsHeader ::
       (if accessible p || (statusCode p =? 400) then [corsSuccess p]
        else [corsWarn p; corsTip]))%list.
Proof.
  intros Hu Hne Hev p. unfold corsCheckStep, getenv. rewrite Hu. unfold_m. cbn.
  change (negb (String.eqb u "")) with (strTruthy u). rewrite (strTruthy_ne _ Hne).
  match goal with |- context [checkUrl env ?U ?w0] =>
    change U with (PUBLIC_BASE u);
    rewrite (checkUrl_first_event env (PUBLIC_BASE u) w0 ev evs Hev) end.
  fold p. destruct (accessible p || (statusCode p =? 400)); cbn;
    eexists; (split; [reflexivity|]); cbn; rewrite <- ?app_assoc; reflexivity.
Qed.

(** C7. In the connectivity test the check of the public-object base URL
    ends in the success line exactly when the probe result is accessible or
    its status is 400; in every other case (status 0, 404, ...) it ends in
    the warning and the tip, with no success line. *)
Theorem checkConnectivity_public_endpoint (env : Env) (w : World) (c : Client)
    (u : string) (ev : ReqEvent) (evs : list ReqEvent) :
  supabase w = Some c →
  authReplyOk (auth_getUser env) →
  bucketsReplyOk (listBuckets env) →
  process_env env !! ENV_SUPABASE_URL = Some u → u ≠ "" →
  http_get env (protocolOf (PUBLIC_BASE u)) (PUBLIC_BASE u) 5000 = GetEvents (ev :: evs) →
  let r := checkConnectivity env w in
  let p := settledBy ev in
  fst r = Ret tt ∧
  (accessible p = true ∨ statusCode p = 400 →
   ∃ before, console (snd r) = (before ++ [corsHeader; corsSuccess p])%list) ∧
  (accessible p = false ∧ statusCode p ≠ 400 →
   ∃ before, console (snd r) = (before ++ [corsHeader; corsWarn p; corsTip])%list).
Proof.
  intros Hc Ha Hb Hu Hne Hev r p.
  destruct (checkConnectivity_reaches_step3 env w c Hc Ha Hb) as [w1 Hr].
  destruct (corsCheckStep_report env w1 u ev evs Hu Hne Hev) as (w' & Hrun & Hcon).
  subst r. rewrite Hr, Hrun. cbn. fold p in Hcon. split; [reflexivity|split].
  - intros Hok. exists (console w1). rewrite Hcon.
    destruct Hok as [-> | ->]; [reflexivity|]. rewrite orb_true_r. reflexivity.
  - intros [Hacc Hst]. exists (console w1). rewrite Hcon, Hacc.
    destruct (Z.eqb_spec (statusCode p) 400); [contradiction|reflexivity].
Qed.

Lemma checkConnectivity_public_endpoint_witness :
  let r := checkConnectivity sampleEnv (freshWorld []) in
  fst r = Ret tt ∧
  ∃ before, console (snd r) =
    (before ++ [corsHeader; corsSuccess (settledBy (EvResponse 400))])%list.
Proof.
  destruct (checkConnectivity_public_endpoint sampleEnv (freshWorld [])
              (mkClient SAMPLE_URL "service-role-key") SAMPLE_URL (EvResponse 400) [])
    as (H1 & H2 & _).
  - reflexivity.
  - eexists; reflexivity.
  - eexists; reflexivity.
  - reflexivity.
  - discriminate.
  - reflexivity.
  - split; [exact H1|]. apply H2. right. reflexivity.
Defined.

(** ** C5: the file listing *)

#[local] Arguments urlCalls : simpl never.
#[local] Arguments itemSize : simpl never.
#[local] Arguments itemMime : simpl never.

Lemma showItem_run (env : Env) (bucketName prefix : string) (item : Item)
    (w : World) (c : Client) :
  supabase w = Some c →
  ∃ w', showItem env bucketName prefix item w = (Ret tt, w') ∧
        supabase w' = Some c ∧
        calls w' = (calls w ++ urlCalls bucketName prefix [item])%list.
Proof.
  intros Hc. unfold showItem, urlCalls, itemTarget. unfold_m. cbn.
  destruct (truthy (id item)) eqn:Hid; cbn.
  - rewrite Hc. cbn. rewrite decide_True by reflexivity.  cbn.
    destruct (getPublicUrl env _ _) as [[[u|]]|]; cbn; try destruct (strTruthy u); cbn;
      eexists; repeat split; try reflexivity; assumption.
  - rewrite decide_False by discriminate. cbn. rewrite app_nil_r.
    eexists; repeat split; try reflexivity; assumption.
Qed.

#[local] Arguments showItem : simpl never.

Lemma urlCalls_cons (bucketName prefix : string) (item : Item) (data : list Item) :
  urlCalls bucketName prefix (item :: data) =
  (urlCalls bucketName prefix [item] ++ urlCalls bucketName prefix data)%list.
Proof.
  unfold urlCalls. cbn. destruct (decide (truthy (id item) = true)); reflexivity.
Qed.

Lemma forEach_showItem (env : Env) (bucketName prefix : string) (c : Client)
    (data : list Item) :
  ∀ w, supabase w = Some c →
  ∃ w', forEach (showItem env bucketName prefix) data w = (Ret tt, w') ∧
        supabase w' = Some c ∧
        calls w' = (calls w ++ urlCalls bucketName prefix data)%list.
Proof.
  induction data as [|item data IH]; intros w Hc.
  - exists w. cbn. rewrite app_nil_r. auto.
  - cbn [forEach]. unfold bind.
    destruct (showItem_run env bucketName prefix item w c Hc) as (w1 & -> & Hc1 & Hcalls1).
    destruct (IH w1 Hc1) as (w2 & -> & Hc2 & Hcalls2).
    exists w2. repeat split; [assumption|].
    rewrite Hcalls2, Hcalls1, (urlCalls_cons _ _ item data), app_assoc. reflexivity.
Qed.

Lemma itemSize_default (env : Env) (item : Item) :
  metadata item = None ∨ (∃ md, metadata item = Some md ∧ md_size md = None) →
  formatBytes env (itemSize item) = "0 Bytes".
Proof.
  unfold itemSize. intros [-> | (md & -> & ->)]; reflexivity.
Qed.

Lemma itemMime_default (item : Item) :
  metadata item = None ∨ (∃ md, metadata item = Some md ∧ mimetype md = None) →
  itemMime item = "N/A".
Proof.
  unfold itemMime. intros [-> | (md & -> & ->)]; reflexivity.
Qed.

(** C5. For a listing that returns entries: the handler runs its callback
    on every entry and calls nothing but the listing and, for each entry with
    an id, the public-URL construction; no URL is ever probed. An entry
    without an id (the field missing, so undefined, or null, or empty) gets
    the directory line and nothing else. An entry with an id gets the file
    line, with size "0 Bytes" and MIME "N/A" when its metadata or the field
    is absent, and, when the client yields a public URL, the URL line. *)
Theorem showBucketFiles_entries (env : Env) (w : World) (c : Client)
    (bucketName prefix : string) (rest : list string) (data : list Item) :
  supabase w = Some c →
  stdin w = bucketName :: prefix :: rest →
  bucketName ≠ "" →
  list_ env bucketName prefix (mkListOptions 100 0) = Replies (Some data) None →
  data ≠ [] →
  (∃ w1, supabase w1 = Some c ∧
         showBucketFiles env w = forEach (showItem env bucketName prefix) data w1) ∧
  fst (showBucketFiles env w) = Ret tt ∧
  calls (snd (showBucketFiles env w)) =
    (calls w ++ CallList bucketName prefix (mkListOptions 100 0) ::
                urlCalls bucketName prefix data)%list ∧
  ∀ item w0, supabase w0 = Some c →
    (truthy (id item) = false →
     showItem env bucketName prefix item w0 = (Ret tt, emit (dirLine item) w0)) ∧
    (truthy (id item) = true →
     let r := showItem env bucketName prefix item w0 in
     fst r = Ret tt ∧
     calls (snd r) =
       (calls w0 ++ [CallGetPublicUrl bucketName (itemTarget prefix item)])%list ∧
     (∃ more, console (snd r) =
        (console w0 ++
         fileLine item (formatBytes env (itemSize item)) (itemMime item) :: more)%list) ∧
     (metadata item = None ∨ (∃ md, metadata item = Some md ∧ md_size md = None) →
      formatBytes env (itemSize item) = "0 Bytes") ∧
     (metadata item = None ∨ (∃ md, metadata item = Some md ∧ mimetype md = None) →
      itemMime item = "N/A") ∧
     ∀ u, getPublicUrl env bucketName (itemTarget prefix item) = Some (mkUrlData (Some u)) →
          u ≠ "" →
          console (snd r) =
            (console w0 ++
             [fileLine item (formatBytes env (itemSize item)) (itemMime item);
              urlLine u])%list).
Proof.
  intros Hc Hin Hb Hlist Hdata.
  assert (Hrun : ∃ w1, supabase w1 = Some c ∧
            calls w1 = (calls w ++ [CallList bucketName prefix (mkListOptions 100 0)])%list ∧
            showBucketFiles env w = forEach (showItem env bucketName prefix) data w1).
  { unfold showBucketFiles, ask. unfold_m. cbn. rewrite Hin. cbn.
    rewrite (strTruthy_ne _ Hb). cbn. rewrite Hc. cbn. rewrite Hlist. cbn.
    destruct data as [|item data]; [contradiction|]. cbn [length Nat.eqb].
    match goal with |- context [forEach _ _ ?w0] =>
      destruct (forEach_showItem env bucketName prefix c (item :: data) w0 Hc)
        as (w2 & E & _ & _); exists w0 end.
    rewrite E. cbn. repeat split; try reflexivity; assumption. }
  destruct Hrun as (w1 & Hc1 & Hcalls1 & Hrun).
  destruct (forEach_showItem env bucketName prefix c data w1 Hc1) as (w2 & E & _ & Hcalls2).
  split; [exists w1; split; assumption|].
  rewrite Hrun, E. cbn. split; [reflexivity|]. split.
  { rewrite Hcalls2, Hcalls1, <- app_assoc. reflexivity. }
  intros item w0 Hc0. split.
  - intros Hid. unfold showItem, dirLine. unfold_m. rewrite Hid. reflexivity.
  - intros Hid. unfold showItem, fileLine, urlLine, itemTarget. unfold_m. rewrite Hid. cbn.
    rewrite Hc0. cbn.
    split; [|split; [|split; [|split; [apply itemSize_default|split; [apply itemMime_default|]]]]].
    1-3: destruct (getPublicUrl env _ _) as [[[u|]]|]; cbn;
         try destruct (strTruthy u); cbn; rewrite <- ?app_assoc; try reflexivity;
         eexists; reflexivity.
    intros u -> Hu. rewrite (strTruthy_ne _ Hu). cbn. rewrite <- app_assoc. reflexivity.
Qed.

Lemma showBucketFiles_entries_witness :
  let r := showBucketFiles sampleEnv (freshWorld ["avatars"; "pre"]) in
  fst r = Ret tt ∧
  calls (snd r) = [CallList "avatars" "pre" (mkListOptions 100 0);
                   CallGetPublicUrl "avatars" "pre/a.txt"].
Proof.
  destruct (showBucketFiles_entries sampleEnv (freshWorld ["avatars"; "pre"])
              (mkClient SAMPLE_URL "service-role-key") "avatars" "pre" []
              [mkItem "docs" JUndefined None; mkItem "a.txt" (JStr "7f1c") None])
    as (_ & H1 & H2 & _).
  - reflexivity.
  - reflexivity.
  - discriminate.
  - reflexivity.
  - discriminate.
  - split; [exact H1|exact H2].
Defined.

(** ** C8: the generated payload is removed *)






#[local] Arguments prepareTestFile : simpl never.
#[local] Arguments coreUploadProcessor : simpl never.


(** * Further properties of the script *)

(** ** The error hint classifier *)

(** X1. The classifier throws exactly on an error whose message is
    neither a string nor missing (a number, a boolean, an object); on every
    string, null or undefined message it returns a hint. *)
Theorem getErrorHint_throws_only_on_odd_message (error : ApiError) :
  match message error with
  | JUndefined | JNull | JStr _ => ∃ hint, getErrorHint error = inr hint
  | _ => getErrorHint error =
         inl (TypeError "error.message?.toLowerCase is not a function")
  end.
Proof.
  destruct error as [m]. destruct m; cbn [message]; try reflexivity.
  - eexists; reflexivity.
  - eexists; reflexivity.
  - apply getErrorHint_string.
Qed.

Lemma lowerChar_upper (c : ascii) :
  isUpper c = true → lowerChar c = ascii_of_nat (nat_of_ascii c + 32).
Proof. unfold lowerChar, isUpper. intros ->. reflexivity. Qed.

Lemma lowerChar_other (c : ascii) : isUpper c = false → lowerChar c = c.
Proof. unfold lowerChar, isUpper. intros ->. reflexivity. Qed.

Lemma lowerChar_shifted (a b : ascii) :
  isUpper a = true → nat_of_ascii b = (nat_of_ascii a + 32)%nat →
  lowerChar a = lowerChar b.
Proof.
  intros Ha Hb. rewrite (lowerChar_upper a Ha), <- Hb, ascii_nat_embedding.
  symmetry. apply lowerChar_other. unfold isUpper in *. rewrite Hb.
  apply andb_true_iff in Ha as [H1 H2].
  apply Nat.leb_le in H1. apply andb_false_iff. right. apply Nat.leb_gt.
  clear - H1. lia.
Qed.

Lemma caseVariant_lower (a b : ascii) :
  caseVariant a b = true → lowerChar a = lowerChar b.
Proof.
  unfold caseVariant. intros H.
  apply orb_true_iff in H as [H|H]; [apply orb_true_iff in H as [H|H]|].
  - apply Ascii.eqb_eq in H. now subst.
  - apply andb_true_iff in H as [Ha Hb]. apply Nat.eqb_eq in Hb.
    now apply lowerChar_shifted.
  - apply andb_true_iff in H as [Hb Ha]. apply Nat.eqb_eq in Ha.
    symmetry. now apply lowerChar_shifted.
Qed.

Lemma sameUpToCase_lower (s : string) :
  ∀ s', sameUpToCase s s' = true → toLowerCase s = toLowerCase s'.
Proof.
  induction s as [|a r IH]; intros [|b r'] H; try discriminate; [reflexivity|].
  cbn in H. apply andb_true_iff in H as [Hc Hr].
  cbn. rewrite (caseVariant_lower a b Hc), (IH r' Hr). reflexivity.
Qed.

(** X2. Two ASCII messages that differ only in the case of their letters
    get the same keyword hint, or both get the fallback, each quoting its
    own text. *)
Theorem getErrorHint_ignores_casing (s s' : string) :
  asciiText s = true → sameUpToCase s s' = true →
  getErrorHint (mkApiError (JStr s)) = getErrorHint (mkApiError (JStr s')) ∨
  (getErrorHint (mkApiError (JStr s)) = inr (hintFallback (JStr s)) ∧
   getErrorHint (mkApiError (JStr s')) = inr (hintFallback (JStr s'))).
Proof.
  intros _ H%sameUpToCase_lower. unfold getErrorHint, messageLower, message.
  rewrite !message_or_empty, H.
  repeat match goal with |- context [if ?b then _ else _] => destruct b end; auto.
Qed.

Lemma getErrorHint_ignores_casing_witness :
  getErrorHint (mkApiError (JStr "Request TIMEOUT")) =
  getErrorHint (mkApiError (JStr "request timeout")) ∨
  (getErrorHint (mkApiError (JStr "Request TIMEOUT")) =
     inr (hintFallback (JStr "Request TIMEOUT")) ∧
   getErrorHint (mkApiError (JStr "request timeout")) =
     inr (hintFallback (JStr "request timeout"))).
Proof.
  apply (getErrorHint_ignores_casing "Request TIMEOUT" "request timeout");
    reflexivity.
Defined.

(** ** The reachability probe *)

(** X3. Whatever the probe resolves to, [accessible] holds exactly when
    the status is in [200, 400); an accessible result carries no error, a
    result with an error is inaccessible with status 0; and the probe made
    one request, with the 5000 ms timeout, and changed nothing else. *)
Theorem checkUrl_result_shape (env : Env) (url : string) (w w' : World) (r : ProbeResult) :
  checkUrl env url w = (Ret r, w') →
  (accessible r = true ↔ 200 <= statusCode r < 400) ∧
  (accessible r = true → error r = None) ∧
  (error r ≠ None → accessible r = false ∧ statusCode r = 0) ∧
  w' = record (CallHttpGet (protocolOf url) url 5000) w.
Proof.
  unfold checkUrl. destruct (http_get env _ _ _) as [e|evs]; [discriminate|].
  destruct evs as [|ev evs]; [discriminate|].
  cbn [fold_left]. destruct ev; cbn [onEvent resolve];
    rewrite fold_onEvent_resolved; intros [= <- <-]; cbn;
    repeat split; try discriminate; try congruence; lia.
Qed.

Lemma checkUrl_result_shape_witness :
  let r := mkProbe true 200 None in
  (accessible r = true ↔ 200 <= statusCode r < 400) ∧
  (accessible r = true → error r = None) ∧
  (error r ≠ None → accessible r = false ∧ statusCode r = 0) ∧
  record (CallHttpGet Https "https://proj.supabase.co/x" 5000) bootWorld =
  record (CallHttpGet (protocolOf "https://proj.supabase.co/x")
                      "https://proj.supabase.co/x" 5000) bootWorld.
Proof.
  apply (checkUrl_result_shape sampleEnv "https://proj.supabase.co/x" bootWorld).
  reflexivity.
Defined.

(** ** Start-up validation *)

Lemma getenv_truthy (env : Env) (k v : string) :
  process_env env !! k = Some v → v ≠ "" →
  getenv env k = JStr v ∧ truthy (getenv env k) = true.
Proof.
  intros H Hv. unfold getenv. rewrite H. split; [reflexivity|].
  apply (strTruthy_ne _ Hv).
Qed.

(** X4. The start-up check never throws: whatever fails inside its [try]
    is caught. *)
Theorem validate_never_throws (env : Env) (w : World) (e : Exn) :
  fst (validateEnvAndInitClient env w) ≠ Throw e.
Proof.
  unfold validateEnvAndInitClient, newURL. unfold_m. cbn.
  destruct (truthy (getenv env ENV_SUPABASE_URL)); cbn;
    [destruct (url_parses env _); cbn|];
    destruct (truthy (Js.or _ _)); cbn; try destruct (truthy (getenv env ENV_SERVICE_KEY)); cbn;
    try discriminate.
  all: destruct (createClient env _ _); cbn; try discriminate.
  all: match goal with |- context [checkUrl ?en ?u ?w0] => probe en u w0 end.
  all: destruct o as [r| |]; cbn; try destruct (accessible r); cbn; discriminate.
Qed.

(** X5. Without a service key and without an anon key the check returns
    false, says which variables to set, builds no client and makes no
    request. *)
Theorem validate_without_key (env : Env) (w : World) :
  truthy (getenv env ENV_SERVICE_KEY) = false →
  truthy (getenv env ENV_ANON_KEY) = false →
  ∃ w', validateEnvAndInitClient env w = (Ret false, w') ∧
        supabase w' = supabase w ∧ calls w' = calls w ∧
        Log Error ("No Supabase key found. Set " ++ ENV_SERVICE_KEY ++
                   " (recommended) or " ++ ENV_ANON_KEY ++ ".") ∈ console w'.
Proof.
  intros Hs Ha.
  unfold validateEnvAndInitClient, newURL, Js.or. unfold_m. cbn.
  rewrite Hs, Ha. cbn.
  destruct (truthy (getenv env ENV_SUPABASE_URL)); cbn;
    [destruct (url_parses env _); cbn|];
    eexists; (split; [reflexivity|]); cbn; (split; [reflexivity|split; [reflexivity|]]);
    rewrite !elem_of_app, !list_elem_of_singleton; auto.
Qed.

Lemma validate_without_key_witness :
  ∃ w', validateEnvAndInitClient keylessEnv bootWorld = (Ret false, w') ∧
        supabase w' = supabase bootWorld ∧ calls w' = calls bootWorld ∧
        Log Error ("No Supabase key found. Set " ++ ENV_SERVICE_KEY ++
                   " (recommended) or " ++ ENV_ANON_KEY ++ ".") ∈ console w'.
Proof.
  apply (validate_without_key keylessEnv bootWorld); reflexivity.
Defined.

(** X6. With a parsing endpoint URL, a key, a client that can be built
    and a probe that settles, the check returns true, stores the client and
    makes exactly two calls: [createClient] and one GET of the endpoint. The
    key the client is built with is the service key when it is set, the anon
    key (with a warning) otherwise. *)
Theorem validate_success (env : Env) (w : World) (u key : string) (c : Client)
    (ev : ReqEvent) (evs : list ReqEvent) :
  process_env env !! ENV_SUPABASE_URL = Some u → u ≠ "" →
  url_parses env u = true →
  Js.or (getenv env ENV_SERVICE_KEY) (getenv env ENV_ANON_KEY) = JStr key → key ≠ "" →
  createClient env u key = inr c →
  http_get env (protocolOf u) u 5000 = GetEvents (ev :: evs) →
  ∃ w', validateEnvAndInitClient env w = (Ret true, w') ∧
        supabase w' = Some c ∧
        calls w' = (calls w ++ [CallCreateClient u key;
                                CallHttpGet (protocolOf u) u 5000])%list ∧
        (truthy (getenv env ENV_SERVICE_KEY) = true →
         getenv env ENV_SERVICE_KEY = JStr key) ∧
        (truthy (getenv env ENV_SERVICE_KEY) = false →
         getenv env ENV_ANON_KEY = JStr key ∧
         Log Warn ("Using Anon Key. For full debug capabilities, " ++ ENV_SERVICE_KEY ++
                   " is STRONGLY recommended.") ∈ console w').
Proof.
  intros Hu Hne Hparse Hkey Hkne Hclient Hev.
  destruct (getenv_truthy env _ _ Hu Hne) as [Eu Tu].
  unfold validateEnvAndInitClient, newURL. unfold_m. cbn.
  rewrite Tu, Eu. cbn [toString negb]. rewrite Hparse. cbn. rewrite Hkey.
  cbn [truthy toString]. change (negb (String.eqb key "")) with (strTruthy key).
  rewrite (strTruthy_ne _ Hkne). cbn [negb].
  unfold Js.or in Hkey.
  destruct (truthy (getenv env ENV_SERVICE_KEY)) eqn:Ts; cbn; rewrite Hclient; cbn;
    match goal with |- context [checkUrl env u ?w0] =>
      rewrite (checkUrl_first_event env u w0 ev evs Hev) end; cbn;
    destruct (accessible (settledBy ev)); cbn;
    eexists; (split; [reflexivity|]); cbn;
    (split; [reflexivity|split; [rewrite <- app_assoc; reflexivity|]]);
    (split; [intros; congruence|]); intros; try discriminate;
    (split; [assumption|]); rewrite !elem_of_app, !list_elem_of_singleton; auto 10.
Qed.

Lemma validate_success_witness :
  ∃ w', validateEnvAndInitClient sampleEnv bootWorld = (Ret true, w') ∧
        supabase w' = Some (mkClient SAMPLE_URL "service-role-key") ∧
        calls w' = [CallCreateClient SAMPLE_URL "service-role-key";
                    CallHttpGet Https SAMPLE_URL 5000].
Proof.
  destruct (validate_success sampleEnv bootWorld SAMPLE_URL "service-role-key"
              (mkClient SAMPLE_URL "service-role-key") (EvResponse 200) [])
    as (w' & H1 & H2 & H3 & _); try reflexivity; try discriminate.
  exists w'. split; [exact H1|split; [exact H2|exact H3]].
Defined.

(** X7. A failure after the variables were accepted: when
    [createClient] throws the check returns false and the client handle is
    as before; when the probe request cannot be created the check returns
    false although the handle has already been set. Both end with the
    same error line. *)
Theorem validate_late_failure (env : Env) (w : World) (u key : string) (e : Exn) :
  process_env env !! ENV_SUPABASE_URL = Some u → u ≠ "" →
  url_parses env u = true →
  Js.or (getenv env ENV_SERVICE_KEY) (getenv env ENV_ANON_KEY) = JStr key → key ≠ "" →
  (createClient env u key = inl e →
   ∃ w', validateEnvAndInitClient env w = (Ret false, w') ∧
         supabase w' = supabase w ∧
         last (console w') =
           Some (Log Error ("Supabase client initialization failed: " ++ exn_message e))) ∧
  (∀ c, createClient env u key = inr c →
        http_get env (protocolOf u) u 5000 = GetThrows e →
   ∃ w', validateEnvAndInitClient env w = (Ret false, w') ∧
         supabase w' = Some c ∧
         last (console w') =
           Some (Log Error ("Supabase client initialization failed: " ++ exn_message e))).
Proof.
  intros Hu Hne Hparse Hkey Hkne.
  destruct (getenv_truthy env _ _ Hu Hne) as [Eu Tu].
  unfold validateEnvAndInitClient, newURL. unfold_m. cbn.
  rewrite Tu, Eu. cbn [toString negb]. rewrite Hparse. cbn. rewrite Hkey.
  cbn [truthy toString]. change (negb (String.eqb key "")) with (strTruthy key).
  rewrite (strTruthy_ne _ Hkne). cbn [negb]. split.
  - intros Hclient.
    destruct (truthy (getenv env ENV_SERVICE_KEY)); cbn; rewrite Hclient; cbn;
      eexists; (split; [reflexivity|]); cbn; (split; [reflexivity|apply last_snoc]).
  - intros c Hclient Hget.
    destruct (truthy (getenv env ENV_SERVICE_KEY)); cbn; rewrite Hclient; cbn;
      unfold checkUrl; rewrite Hget; cbn;
      eexists; (split; [reflexivity|]); cbn; (split; [reflexivity|apply last_snoc]).
Qed.

(** An endpoint with a scheme other than http(s): it parses as a URL, and
    the request for it cannot be created. *)
Lemma validate_late_failure_witness :
  let env := withProcessEnv (<[ENV_SUPABASE_URL := "ftp://proj.supabase.co"]>
                               (<[ENV_ANON_KEY := "anon-key"]> ∅))
               (mkEnv ∅ "/home/dev/tool" (fun _ => true) (createClient sampleEnv)
                  (auth_getUser sampleEnv) (listBuckets sampleEnv) (upload sampleEnv)
                  (getPublicUrl sampleEnv) (download sampleEnv) (list_ sampleEnv)
                  (http_get sampleEnv) (now sampleEnv) (isoNow sampleEnv)
                  (fmtBytes sampleEnv) (unlink_fault sampleEnv)) in
  ∃ w', validateEnvAndInitClient env bootWorld = (Ret false, w') ∧
        supabase w' = Some (mkClient "ftp://proj.supabase.co" "anon-key") ∧
        last (console w') =
          Some (Log Error "Supabase client initialization failed: Invalid URL").
Proof.
  intros env.
  destruct (validate_late_failure env bootWorld "ftp://proj.supabase.co" "anon-key"
              (TypeError "Invalid URL")) as [_ H]; try reflexivity; try discriminate.
  apply (H (mkClient "ftp://proj.supabase.co" "anon-key")); reflexivity.
Defined.

(** ** The upload processor *)

(** X8. The upload processor never throws: every exception ends in its
    [catch]. *)
Theorem coreUploadProcessor_never_throws (env : Env) (bucketName targetPath : string)
    (fileSource : FileSource) (contentType : string) (fileSize : Z) (w : World) (e : Exn) :
  fst (coreUploadProcessor env bucketName targetPath fileSource contentType fileSize w)
  ≠ Throw e.
Proof.
  unfold coreUploadProcessor. unfold_m. cbn.
  destruct (supabase w) as [c|] eqn:Hc; cbn.
  2:{ hint_total. cbn. discriminate. }
  destruct (upload env _ _ _ _) as [e0|data [err|]]; cbn.
  - hint_total. cbn. discriminate.
  - destruct (getErrorHint err) as [e0|h]; cbn; [hint_total; cbn|]; discriminate.
  - destruct data as [d|]; cbn.
    2:{ hint_total. cbn. discriminate. }
    rewrite Hc. cbn.
    destruct (getPublicUrl env bucketName targetPath) as [[[u|]]|]; cbn; try discriminate.
    destruct (strTruthy u); cbn; try discriminate.
    match goal with |- context [checkUrl env u ?w0] => probe env u w0 end.
    destruct o as [r|e0|]; cbn; [destruct (accessible r); cbn| hint_total; cbn|];
      discriminate.
Qed.

(** X9. An error object in the reply of [upload]: the processor returns
    null, prints the failure, makes no further call and leaves the files
    alone. *)
Theorem coreUploadProcessor_api_error (env : Env) (bucketName targetPath : string)
    (fileSource : FileSource) (contentType : string) (fileSize : Z) (w : World)
    (c : Client) (data : option UploadData) (err : ApiError) :
  supabase w = Some c →
  upload env bucketName (uploadSource fileSource) (JStr targetPath)
         (mkFileOptions contentType "3600" true) = Replies data (Some err) →
  let r := coreUploadProcessor env bucketName targetPath fileSource contentType fileSize w in
  fst r = Ret JNull ∧
  calls (snd r) =
    (calls w ++ [CallUpload bucketName (uploadSource fileSource) (JStr targetPath)
                            (mkFileOptions contentType "3600" true)])%list ∧
  Log Error ("Upload FAILED: " ++ toString (message err)) ∈ console (snd r) ∧
  fsys (snd r) = fsys w.
Proof.
  intros Hc Hup. unfold coreUploadProcessor. unfold_m. cbn. rewrite Hc. cbn.
  rewrite Hup. cbn.
  destruct (getErrorHint err) as [e0|h]; cbn; [hint_total; cbn|];
    (split; [reflexivity|split; [reflexivity|split; [|reflexivity]]]);
    rewrite !elem_of_app, !list_elem_of_singleton; auto 10.
Qed.

(** X10. A successful upload whose public URL, if any, can be probed:
    the processor returns the path the service reports and prints it, with
    the time between its two readings of the clock. *)
Theorem coreUploadProcessor_returns_stored_path (env : Env) (bucketName targetPath : string)
    (fileSource : FileSource) (contentType : string) (fileSize : Z) (w : World)
    (c : Client) (d : UploadData) :
  supabase w = Some c →
  upload env bucketName (uploadSource fileSource) (JStr targetPath)
         (mkFileOptions contentType "3600" true) = Replies (Some d) None →
  (∀ u, getPublicUrl env bucketName targetPath = Some (mkUrlData (Some u)) → u ≠ "" →
        ∃ ev evs, http_get env (protocolOf u) u 5000 = GetEvents (ev :: evs)) →
  let r := coreUploadProcessor env bucketName targetPath fileSource contentType fileSize w in
  fst r = Ret (path d) ∧
  Log Success ("Upload SUCCEEDED in " ++
               pretty (now env (S (ticks w)) - now env (ticks w)) ++
               "ms. Path: " ++ toString (path d)) ∈ console (snd r).
Proof.
  intros Hc Hup Hprobe. unfold coreUploadProcessor. unfold_m. cbn. rewrite Hc. cbn.
  rewrite Hup. cbn. rewrite Hc. cbn.
  destruct (getPublicUrl env bucketName targetPath) as [[[u|]]|] eqn:Hurl; cbn.
  2,3: split; [reflexivity|]; rewrite !elem_of_app, !list_elem_of_singleton; auto 10.
  destruct (strTruthy u) eqn:Hu; cbn.
  2: split; [reflexivity|]; rewrite !elem_of_app, !list_elem_of_singleton; auto 10.
  destruct (Hprobe u eq_refl) as (ev & evs & Hev).
  { intros ->. discriminate Hu. }
  match goal with |- context [checkUrl env u ?w0] =>
    rewrite (checkUrl_first_event env u w0 ev evs Hev) end.
  cbn. destruct (accessible (settledBy ev)); cbn;
    (split; [reflexivity|]); rewrite !elem_of_app, !list_elem_of_singleton; auto 10.
Qed.

(** X11. A successful upload followed by a probe that cannot be created:
    the processor has printed the success, then prints a critical exception
    and returns null, the value its callers read as a failed upload. *)
Theorem coreUploadProcessor_probe_throws (env : Env) (bucketName targetPath u : string)
    (fileSource : FileSource) (contentType : string) (fileSize : Z) (w : World)
    (c : Client) (d : UploadData) (e : Exn) :
  supabase w = Some c →
  upload env bucketName (uploadSource fileSource) (JStr targetPath)
         (mkFileOptions contentType "3600" true) = Replies (Some d) None →
  getPublicUrl env bucketName targetPath = Some (mkUrlData (Some u)) → u ≠ "" →
  http_get env (protocolOf u) u 5000 = GetThrows e →
  let r := coreUploadProcessor env bucketName targetPath fileSource contentType fileSize w in
  fst r = Ret JNull ∧
  Log Success ("Upload SUCCEEDED in " ++
               pretty (now env (S (ticks w)) - now env (ticks w)) ++
               "ms. Path: " ++ toString (path d)) ∈ console (snd r) ∧
  Log Error ("Critical upload exception: " ++ exn_message e) ∈ console (snd r).
Proof.
  intros Hc Hup Hurl Hu Hget. unfold coreUploadProcessor. unfold_m. cbn. rewrite Hc. cbn.
  rewrite Hup. cbn. rewrite Hc. cbn. rewrite Hurl. cbn. rewrite (strTruthy_ne _ Hu). cbn.
  unfold checkUrl. rewrite Hget. cbn. hint_total. cbn.
  split; [reflexivity|]; split; rewrite !elem_of_app, !list_elem_of_singleton; auto 10.
Qed.

Lemma coreUploadProcessor_api_error_witness :
  let r := coreUploadProcessor refusingEnv "avatars" "docs/a.txt" sampleSource
             "text/plain" 10 (freshWorld []) in
  fst r = Ret JNull ∧
  calls (snd r) = [CallUpload "avatars" (JStream "/tmp/a.txt") (JStr "docs/a.txt")
                              (mkFileOptions "text/plain" "3600" true)] ∧
  Log Error "Upload FAILED: Bucket not found" ∈ console (snd r).
Proof.
  destruct (coreUploadProcessor_api_error refusingEnv "avatars" "docs/a.txt" sampleSource
              "text/plain" 10 (freshWorld []) (mkClient SAMPLE_URL "service-role-key")
              None (mkApiError (JStr "Bucket not found")))
    as (H1 & H2 & H3 & _); try reflexivity.
  split; [exact H1|split; [exact H2|exact H3]].
Defined.

Lemma coreUploadProcessor_returns_stored_path_witness :
  fst (coreUploadProcessor lenientEnv "avatars" "docs/a.txt" sampleSource
         "text/plain" 10 (freshWorld [])) = Ret (JStr "[object Object]").
Proof.
  refine (proj1 (coreUploadProcessor_returns_stored_path lenientEnv "avatars" "docs/a.txt"
              sampleSource "text/plain" 10 (freshWorld [])
              (mkClient SAMPLE_URL "service-role-key")
              (mkUploadData (JStr "[object Object]")) eq_refl eq_refl _)).
  intros u [= <-] _. exists (EvResponse 200), []. reflexivity.
Defined.

Lemma coreUploadProcessor_probe_throws_witness :
  let r := coreUploadProcessor oddUrlEnv "avatars" "docs/a.txt" sampleSource
             "text/plain" 10 (freshWorld []) in
  fst r = Ret JNull ∧
  Log Success "Upload SUCCEEDED in 25ms. Path: [object Object]" ∈ console (snd r) ∧
  Log Error "Critical upload exception: Invalid URL" ∈ console (snd r).
Proof.
  apply (coreUploadProcessor_probe_throws oddUrlEnv "avatars" "docs/a.txt" "about:blank"
           sampleSource "text/plain" 10 (freshWorld [])
           (mkClient SAMPLE_URL "service-role-key")
           (mkUploadData (JStr "[object Object]")) (TypeError "Invalid URL"));
    try reflexivity; discriminate.
Defined.

(** ** Invariants: how they pass through the monad *)

Section Post.

Variable R : World → World → Prop.
Hypothesis R_refl : ∀ w, R w w.
Hypothesis R_trans : ∀ a b c, R a b → R b c → R a c.
Hypothesis R_emit : ∀ c w, R w (emit c w).
Hypothesis R_record : ∀ c w, R w (record c w).
Hypothesis R_tick : ∀ w, R w (tick w).

Lemma post_ret {A} (Q : A → Prop) (a : A) : Q a → post R Q (ret a).
Proof. intros H w. split; [apply R_refl|]. cbn. intros ? [= <-]. exact H. Qed.

Lemma post_throw {A} (Q : A → Prop) (e : Exn) : post R Q (throw e).
Proof. intros w. split; [apply R_refl|]. cbn. discriminate. Qed.

Lemma post_weaken {A} (Q Q' : A → Prop) (m : M A) :
  (∀ a, Q a → Q' a) → post R Q m → post R Q' m.
Proof. intros HQ H w. destruct (H w) as [H1 H2]. split; auto. Qed.

Lemma post_bind {A B} (Q : A → Prop) (Q' : B → Prop) (m : M A) (k : A → M B) :
  post R Q m → (∀ a, Q a → post R Q' (k a)) → post R Q' (bind m k).
Proof.
  intros Hm Hk w. unfold bind. destruct (Hm w) as [H1 H2].
  destruct (m w) as [[a|e|] w1]; cbn in *.
  - destruct (Hk a (H2 a eq_refl) w1) as [H3 H4]. split; [eapply R_trans; eauto|exact H4].
  - split; [exact H1|discriminate].
  - split; [exact H1|discriminate].
Qed.

Lemma post_seq {A B} (Q' : B → Prop) (m : M A) (k : A → M B) :
  post R anyValue m → (∀ a, post R Q' (k a)) → post R Q' (bind m k).
Proof. intros Hm Hk. apply (post_bind anyValue); auto. Qed.

Lemma post_tryCatch {A} (Q : A → Prop) (m : M A) (h : Exn → M A) :
  post R Q m → (∀ e, post R Q (h e)) → post R Q (tryCatch m h).
Proof.
  intros Hm Hh w. unfold tryCatch. destruct (Hm w) as [H1 H2].
  destruct (m w) as [[a|e|] w1]; cbn in *.
  - split; assumption.
  - destruct (Hh e w1) as [H3 H4]. split; [eapply R_trans; eauto|exact H4].
  - split; [exact H1|discriminate].
Qed.

Lemma post_say (c : Console) : post R anyValue (say c).
Proof. intros w. split; [apply R_emit|]. intros; exact I. Qed.

Lemma post_liftE {A} (r : Exn + A) : post R anyValue (liftE r).
Proof. destruct r; [apply post_throw|apply post_ret; exact I]. Qed.

Lemma post_await {A} (c : Call) (r : Reply A) : post R anyValue (await c r).
Proof.
  intros w. unfold await. destruct r; (split; [apply R_record|]); intros; exact I.
Qed.

Lemma post_liftReply {A} (r : Reply A) : post R anyValue (liftReply r).
Proof.
  intros w. unfold liftReply. destruct r; (split; [apply R_refl|]); intros; exact I.
Qed.

Lemma post_theClient (prop : string) : post R anyValue (theClient prop).
Proof.
  intros w. unfold theClient. destruct (supabase w); (split; [apply R_refl|]);
    intros; exact I.
Qed.

Lemma post_dateNow (env : Env) : post R anyValue (dateNow env).
Proof. intros w. split; [apply R_tick|]. intros; exact I. Qed.

Lemma post_checkUrl (env : Env) (url : string) : post R anyValue (checkUrl env url).
Proof.
  intros w. rewrite checkUrl_world. split; [apply R_record|]. intros; exact I.
Qed.

Lemma post_existsSync (p : string) : post R anyValue (existsSync p).
Proof. intros w. split; [apply R_refl|]. intros; exact I. Qed.

Lemma post_statSize (host : Host) (p : string) : post R anyValue (statSize host p).
Proof.
  intros w. unfold statSize. destruct (files (fsys w) !! p); [|destruct (bool_decide _)];
    (split; [apply R_refl|]); intros; exact I.
Qed.

(** A step that reads the world, or records a call, and returns. *)
Lemma post_read {A} (f : World → A) : post R anyValue (fun w => (Ret (f w), w)).
Proof. intros w. split; [apply R_refl|]. intros; exact I. Qed.

Lemma post_recorded {A} (a : A) (c : Call) :
  post R anyValue (fun w => (Ret a, record c w)).
Proof. intros w. split; [apply R_record|]. intros; exact I. Qed.

Lemma post_hang {A} (Q : A → Prop) : post R Q (fun w => (Hang, w)).
Proof. intros w. split; [apply R_refl|]. discriminate. Qed.

Lemma post_forEach {A} (f : A → M unit) (l : list A) :
  (∀ x, post R anyValue (f x)) → post R anyValue (forEach f l).
Proof.
  intros Hf. induction l as [|x l IH]; cbn [forEach].
  - apply post_ret. exact I.
  - apply post_seq; [apply Hf|intros _; exact IH].
Qed.

End Post.

(** One step of a proof that a handler keeps an invariant: split at a bind
    or a [try], close a primitive, or look at the value a branch depends
    on. *)
Ltac post_step :=
  match goal with
  | |- post _ _ (ret _) => apply post_ret; first [assumption|exact I]
  | |- post _ _ (throw _) => apply post_throw; assumption
  | |- post _ _ (say _) => apply post_say; assumption
  | |- post _ _ (liftE _) => apply post_liftE; assumption
  | |- post _ _ (await _ _) => apply post_await; assumption
  | |- post _ _ (liftReply _) => apply post_liftReply; assumption
  | |- post _ _ (theClient _) => apply post_theClient; assumption
  | |- post _ _ (dateNow _) => apply post_dateNow; assumption
  | |- post _ _ (checkUrl _ _) => apply post_checkUrl; assumption
  | |- post _ _ (existsSync _) => apply post_existsSync; assumption
  | |- post _ _ (statSize _ _) => apply post_statSize; assumption
  | |- post _ _ (forEach _ _) => apply post_forEach; [..|intros ?]; try assumption
  | |- post _ _ (bind _ _) => apply post_seq; [..|intros ?]; try assumption
  | |- post _ _ (tryCatch _ _) => apply post_tryCatch; [..|intros ?]; try assumption
  | |- post _ _ (fun w => (Ret _, record _ w)) => apply post_recorded; assumption
  | |- post _ _ (fun w => (Ret _, w)) => apply post_read; assumption
  | |- post _ _ (fun w => (Hang, w)) => apply post_hang; assumption
  | |- post _ _ (match ?x with _ => _ end) => destruct x
  | |- post _ _ _ => assumption
  | |- post _ _ _ => solve [auto with post]
  end.

Ltac post_go :=
  unfold logInfo, logError, logSuccess, logWarn, logTip;
  repeat (cbv zeta; post_step).

Create HintDb post.

Section Keep.

Variable env : Env.
Variable host : Host.
Variable R : World → World → Prop.
Hypothesis R_refl : ∀ w, R w w.
Hypothesis R_trans : ∀ a b c, R a b → R b c → R a c.
Hypothesis R_emit : ∀ c w, R w (emit c w).
Hypothesis R_record : ∀ c w, R w (record c w).
Hypothesis R_tick : ∀ w, R w (tick w).
Hypothesis R_ask : ∀ q, post R anyValue (ask q).
Hypothesis R_mkdir : post R anyValue (mkdirSync (TEMP_DIR_PATH env)).
Hypothesis R_write :
  ∀ x c, post R anyValue (writeFileSync (Path.join (TEMP_DIR_PATH env) x) c).
Hypothesis R_unlink :
  ∀ x, post R anyValue (unlinkSync env (Path.join (TEMP_DIR_PATH env) x)).
Hypothesis R_rm : post R anyValue (rmSync host (TEMP_DIR_PATH env)).
Hypothesis R_close : post R anyValue rlClose.

Lemma keep_coreUploadProcessor (b p : string) (src : FileSource) (ct : string) (sz : Z) :
  post R anyValue (coreUploadProcessor env b p src ct sz).
Proof. unfold coreUploadProcessor. post_go. Qed.

Lemma keep_prepareTestFile (type : string) :
  post R (inTempDir env) (prepareTestFile env type).
Proof.
  unfold prepareTestFile.
  apply post_seq; [assumption|post_go|intros there].
  apply post_seq; [assumption|post_go|intros _].
  destruct (String.eqb type "text"); [|destruct (String.eqb type "image")].
  - apply post_seq; [assumption|post_go|intros _].
    apply post_ret; [assumption|]. intros t [= <-]. eexists; reflexivity.
  - apply post_seq; [assumption|post_go|intros _].
    apply post_ret; [assumption|]. intros t [= <-]. eexists; reflexivity.
  - apply post_ret; [assumption|]. intros t [=].
Qed.

Lemma keep_handleGeneratedFileUpload (fileType : string) :
  post R anyValue (handleGeneratedFileUpload env fileType).
Proof.
  unfold handleGeneratedFileUpload.
  do 3 (apply post_seq; [assumption|post_go|intros ?]).
  destruct (negb _); [post_go|].
  apply (post_bind R R_trans (inTempDir env)); [apply keep_prepareTestFile|].
  intros [tf|] Htf; [|post_go].
  destruct (Htf tf eq_refl) as [x Hx]. rewrite Hx.
  pose proof keep_coreUploadProcessor. post_go.
Qed.

Lemma keep_checkConnectivity : post R anyValue (checkConnectivity env).
Proof. unfold checkConnectivity, corsCheckStep. post_go. Qed.

Lemma keep_showBucketFiles : post R anyValue (showBucketFiles env).
Proof. unfold showBucketFiles, showItem. post_go. Qed.

Lemma keep_checkDownload : post R anyValue (checkDownload env).
Proof. unfold checkDownload, downloadStep, publicUrlStep. post_go. Qed.

Lemma keep_handleCustomFileUpload : post R anyValue (handleCustomFileUpload env host).
Proof.
  unfold handleCustomFileUpload. pose proof keep_coreUploadProcessor. post_go.
Qed.

Lemma keep_showBuckets : post R anyValue (showBuckets env host).
Proof. unfold showBuckets, showBucket. post_go. Qed.

Lemma keep_fullDiagnostics : post R anyValue (fullDiagnostics env host).
Proof.
  unfold fullDiagnostics, diagStatus, diagBuckets, diagBucket, diagPublicUrl.
  do 4 (apply post_seq; [assumption|post_go|intros ?]).
  apply post_seq; [assumption| |intros ?; post_go].
  unfold diagReadWrite.
  do 3 (apply post_seq; [assumption|post_go|intros ?]).
  destruct (match _ with Some (b :: _) => _ | _ => _ end) as [target|]; [|post_go].
  destruct (strTruthy target); [|post_go].
  apply post_seq; [assumption|post_go|intros _].
  apply (post_bind R R_trans (inTempDir env)); [apply keep_prepareTestFile|].
  intros [tf|] Htf; [|post_go].
  destruct (Htf tf eq_refl) as [x Hx]. rewrite Hx.
  pose proof keep_coreUploadProcessor. post_go.
Qed.

Lemma keep_exitAction : post R anyValue (exitAction env host).
Proof. unfold exitAction. post_go. Qed.

Lemma keep_pressEnterToContinue : post R anyValue pressEnterToContinue.
Proof. unfold pressEnterToContinue. post_go. Qed.

Lemma keep_runAction (a : Action) : post R anyValue (runAction env host a).
Proof.
  destruct a; cbn [runAction];
    auto using keep_checkConnectivity, keep_showBuckets, keep_handleGeneratedFileUpload,
      keep_handleCustomFileUpload, keep_showBucketFiles, keep_checkDownload,
      keep_fullDiagnostics, keep_exitAction.
Qed.

Lemma keep_menuRound (again : M unit) :
  post R anyValue again → post R anyValue (menuRound env host again).
Proof.
  intros Hagain. unfold menuRound.
  pose proof keep_runAction. pose proof keep_pressEnterToContinue. post_go.
Qed.

Lemma keep_mainLoop (fuel : nat) : post R anyValue (mainLoop env host fuel).
Proof.
  induction fuel as [|fuel IH]; cbn [mainLoop]; [post_go|].
  apply keep_menuRound. exact IH.
Qed.

End Keep.

(** ** The client handle, the input and the files outside the temp
    directory *)

Lemma append_assoc (a b c : string) : (a ++ b) ++ c = a ++ b ++ c.
Proof.
  induction a as [|ch a IH]; [reflexivity|].
  change ((String ch a ++ b) ++ c) with (String ch ((a ++ b) ++ c)).
  change (String ch a ++ b ++ c) with (String ch (a ++ b ++ c)).
  now rewrite IH.
Qed.

Lemma within_self (p : string) : within p p = true.
Proof. unfold within. now rewrite String.eqb_refl. Qed.

Lemma within_join (p x : string) : within p (Path.join p x) = true.
Proof.
  unfold within, Path.join. rewrite <- append_assoc, startsWith_app.
  apply orb_true_r.
Qed.

Lemma not_within_ne (p q r : string) : within p q = false → within p r = true → q ≠ r.
Proof. intros H1 H2 ->. congruence. Qed.

Lemma ask_post_client (q : string) : post sameClient anyValue (ask q).
Proof.
  intros w. unfold ask, sameClient. cbn. destruct (stdin w); cbn;
    (split; [reflexivity|intros; exact I]).
Qed.

Lemma ask_post_input (q : string) : post inputConsumed anyValue (ask q).
Proof.
  intros w. unfold ask, inputConsumed. cbn. destruct (stdin w) as [|l rest] eqn:E; cbn;
    rewrite ?E; (split; [|intros; exact I]); [reflexivity|apply suffix_cons_r; reflexivity].
Qed.

(** X12. No action of the menu, and no run of the loop, assigns the
    client handle. *)
Theorem menu_keeps_client (env : Env) (host : Host) (w : World) :
  (∀ a, supabase (snd (runAction env host a w)) = supabase w) ∧
  (∀ fuel, supabase (snd (mainLoop env host fuel w)) = supabase w).
Proof.
  assert (Hr : ∀ x, sameClient x x) by reflexivity.
  assert (Ht : ∀ a b c, sameClient a b → sameClient b c → sameClient a c)
    by (unfold sameClient; congruence).
  split; [intros a|intros fuel].
  - refine (proj1 (keep_runAction env host sameClient Hr Ht _ _ _ ask_post_client
                     _ _ _ _ _ a w)); try reflexivity;
      try (intros; intros w0; unfold sameClient; split; [|intros; exact I]).
    all: try (unfold mkdirSync, rlClose; reflexivity).
    + unfold writeFileSync. destruct (bool_decide _); reflexivity.
    + unfold unlinkSync. destruct (unlink_fault env _); [reflexivity|].
      destruct (files _ !! _); reflexivity.
    + unfold rmSync. destruct (rm_fault host _); reflexivity.
  - refine (proj1 (keep_mainLoop env host sameClient Hr Ht _ _ _ ask_post_client
                     _ _ _ _ _ fuel w)); try reflexivity;
      try (intros; intros w0; unfold sameClient; split; [|intros; exact I]).
    all: try (unfold mkdirSync, rlClose; reflexivity).
    + unfold writeFileSync. destruct (bool_decide _); reflexivity.
    + unfold unlinkSync. destruct (unlink_fault env _); [reflexivity|].
      destruct (files _ !! _); reflexivity.
    + unfold rmSync. destruct (rm_fault host _); reflexivity.
Qed.

Lemma fs_steps_keep_input (env : Env) (host : Host) :
  post inputConsumed anyValue (mkdirSync (TEMP_DIR_PATH env)) ∧
  (∀ x c, post inputConsumed anyValue
            (writeFileSync (Path.join (TEMP_DIR_PATH env) x) c)) ∧
  (∀ x, post inputConsumed anyValue
          (unlinkSync env (Path.join (TEMP_DIR_PATH env) x))) ∧
  post inputConsumed anyValue (rmSync host (TEMP_DIR_PATH env)) ∧
  post inputConsumed anyValue rlClose.
Proof.
  unfold post, inputConsumed. repeat split; intros; try exact I.
  - reflexivity.
  - unfold writeFileSync. destruct (bool_decide _); reflexivity.
  - unfold unlinkSync. destruct (unlink_fault env _); [reflexivity|].
    destruct (files _ !! _); reflexivity.
  - unfold rmSync. destruct (rm_fault host _); reflexivity.
  - apply suffix_nil.
Qed.

(** X13. Input is consumed front to back: what is left after an action,
    or after a run of the loop, is a suffix of what was there. *)
Theorem menu_reads_input_in_order (env : Env) (host : Host) (w : World) :
  (∀ a, suffix (stdin (snd (runAction env host a w))) (stdin w)) ∧
  (∀ fuel, suffix (stdin (snd (mainLoop env host fuel w))) (stdin w)).
Proof.
  assert (Hr : ∀ x, inputConsumed x x) by (intros x; unfold inputConsumed; reflexivity).
  assert (Ht : ∀ a b c, inputConsumed a b → inputConsumed b c → inputConsumed a c).
  { unfold inputConsumed. intros a b c H1 H2. etransitivity; eassumption. }
  destruct (fs_steps_keep_input env host) as (H1 & H2 & H3 & H4 & H5).
  split; [intros a|intros fuel].
  - exact (proj1 (keep_runAction env host inputConsumed Hr Ht (fun _ x => Hr x)
                    (fun _ x => Hr x) Hr ask_post_input H1 H2 H3 H4 H5 a w)).
  - exact (proj1 (keep_mainLoop env host inputConsumed Hr Ht (fun _ x => Hr x)
                    (fun _ x => Hr x) Hr ask_post_input H1 H2 H3 H4 H5 fuel w)).
Qed.

Lemma outsideTempKept_refl (env : Env) (w : World) : outsideTempKept env w w.
Proof. intros p _. split; reflexivity. Qed.

Lemma outsideTempKept_trans (env : Env) (a b c : World) :
  outsideTempKept env a b → outsideTempKept env b c → outsideTempKept env a c.
Proof.
  intros H1 H2 p Hp. destruct (H1 p Hp) as [F1 D1]. destruct (H2 p Hp) as [F2 D2].
  split; [congruence|]. rewrite D2. exact D1.
Qed.

Lemma fs_steps_stay_in_temp (env : Env) (host : Host) :
  post (outsideTempKept env) anyValue (mkdirSync (TEMP_DIR_PATH env)) ∧
  (∀ x c, post (outsideTempKept env) anyValue
            (writeFileSync (Path.join (TEMP_DIR_PATH env) x) c)) ∧
  (∀ x, post (outsideTempKept env) anyValue
          (unlinkSync env (Path.join (TEMP_DIR_PATH env) x))) ∧
  post (outsideTempKept env) anyValue (rmSync host (TEMP_DIR_PATH env)) ∧
  post (outsideTempKept env) anyValue rlClose ∧
  (∀ q, post (outsideTempKept env) anyValue (ask q)).
Proof.
  split; [|split; [|split; [|split; [|split]]]]; intros; intros w;
    (split; [intros p Hp|intros; exact I]).
  - cbn. split; [reflexivity|].
    rewrite elem_of_union, elem_of_singleton.
    pose proof (not_within_ne _ _ _ Hp (within_self (TEMP_DIR_PATH env))). tauto.
  - unfold writeFileSync. destruct (bool_decide _); cbn; [|split; reflexivity].
    split; [|reflexivity]. apply lookup_insert_ne. intros E.
    exact (not_within_ne _ _ _ Hp (within_join _ x) (eq_sym E)).
  - unfold unlinkSync. destruct (unlink_fault env _); [split; reflexivity|].
    destruct (files (fsys w) !! Path.join (TEMP_DIR_PATH env) x);
      cbn; [|split; reflexivity].
    split; [|reflexivity]. apply lookup_delete_ne. intros E.
    exact (not_within_ne _ _ _ Hp (within_join _ x) (eq_sym E)).
  - unfold rmSync. destruct (rm_fault host _); cbn; split.
    + destruct (files (fsys w) !! p) as [c|] eqn:E.
      * apply map_lookup_filter_Some. split; [assumption|]. cbn. now rewrite Hp.
      * apply map_lookup_filter_None. left. exact E.
    + rewrite elem_of_filter, Hp. cbn. tauto.
    + destruct (files (fsys w) !! p) as [c|] eqn:E.
      * apply map_lookup_filter_Some. split; assumption.
      * apply map_lookup_filter_None. left. exact E.
    + rewrite elem_of_filter. tauto.
  - cbn. split; reflexivity.
  - unfold ask. cbn. destruct (stdin w); cbn; split; reflexivity.
Qed.

(** X14. The file system outside the temp directory is never touched: a
    path that is neither the temp directory nor beneath it holds the same
    file, and is a directory or not, after any action and any run of the
    loop as before. *)
Theorem menu_stays_in_temp_dir (env : Env) (host : Host) (w : World) (p : string) :
  within (TEMP_DIR_PATH env) p = false →
  (∀ a, let w' := snd (runAction env host a w) in
        files (fsys w') !! p = files (fsys w) !! p ∧
        (p ∈ dirs (fsys w') ↔ p ∈ dirs (fsys w))) ∧
  (∀ fuel, let w' := snd (mainLoop env host fuel w) in
           files (fsys w') !! p = files (fsys w) !! p ∧
           (p ∈ dirs (fsys w') ↔ p ∈ dirs (fsys w))).
Proof.
  intros Hp.
  destruct (fs_steps_stay_in_temp env host) as (H1 & H2 & H3 & H4 & H5 & H6).
  split; [intros a|intros fuel].
  - exact (proj1 (keep_runAction env host (outsideTempKept env)
                    (outsideTempKept_refl env) (outsideTempKept_trans env)
                    (fun _ x => outsideTempKept_refl env x)
                    (fun _ x => outsideTempKept_refl env x)
                    (outsideTempKept_refl env) H6 H1 H2 H3 H4 H5 a w) p Hp).
  - exact (proj1 (keep_mainLoop env host (outsideTempKept env)
                    (outsideTempKept_refl env) (outsideTempKept_trans env)
                    (fun _ x => outsideTempKept_refl env x)
                    (fun _ x => outsideTempKept_refl env x)
                    (outsideTempKept_refl env) H6 H1 H2 H3 H4 H5 fuel w) p Hp).
Qed.

Lemma menu_stays_in_temp_dir_witness :
  let w := freshWorld ["7"; "avatars"; "docs/a.txt"; ""; "9"] in
  let p := "/home/dev/tool/notes.txt" in
  (∀ a, let w' := snd (runAction sampleEnv sampleHost a w) in
        files (fsys w') !! p = files (fsys w) !! p ∧
        (p ∈ dirs (fsys w') ↔ p ∈ dirs (fsys w))) ∧
  (∀ fuel, let w' := snd (mainLoop sampleEnv sampleHost fuel w) in
           files (fsys w') !! p = files (fsys w) !! p ∧
           (p ∈ dirs (fsys w') ↔ p ∈ dirs (fsys w))).
Proof.
  apply (menu_stays_in_temp_dir sampleEnv sampleHost
           (freshWorld ["7"; "avatars"; "docs/a.txt"; ""; "9"])
           "/home/dev/tool/notes.txt").
  reflexivity.
Defined.

(** ** The menu loop *)

Lemma bind_congr {A B} (m : M A) (k1 k2 : A → M B) (w : World) :
  (∀ a w1, m w = (Ret a, w1) → k1 a w1 = k2 a w1) →
  bind m k1 w = bind m k2 w.
Proof.
  intros H. unfold bind. destruct (m w) as [[a|e|] w1] eqn:E; auto.
Qed.

Lemma input_length {A} (m : M A) (w w1 : World) (o : outcome A) :
  post inputConsumed anyValue m → m w = (o, w1) →
  (length (stdin w1) <= length (stdin w))%nat.
Proof.
  intros H E. destruct (H w) as [Hs _]. rewrite E in Hs.
  exact (suffix_length _ _ Hs).
Qed.

Lemma say_input (c : Console) : post inputConsumed anyValue (say c).
Proof. intros w. split; [unfold inputConsumed; reflexivity|intros; exact I]. Qed.

Lemma ask_consumes (q a : string) (w w1 : World) :
  ask q w = (Ret a, w1) → S (length (stdin w1)) = length (stdin w).
Proof.
  unfold ask. cbn. destruct (stdin w) as [|l rest] eqn:E; cbn; rewrite ?E; [discriminate|].
  intros [= <- <-]. reflexivity.
Qed.

Lemma pressEnterToContinue_consumes (a : unit) (w w1 : World) :
  pressEnterToContinue w = (Ret a, w1) → S (length (stdin w1)) = length (stdin w).
Proof.
  unfold pressEnterToContinue, bind, say, ret.
  destruct (ask "" _) as [[x|e|] w2] eqn:E; try discriminate.
  intros [= _ <-]. apply ask_consumes in E. exact E.
Qed.

Lemma runAction_input (env : Env) (host : Host) (a : Action) :
  post inputConsumed anyValue (runAction env host a).
Proof.
  assert (Hr : ∀ x, inputConsumed x x) by (intros x; unfold inputConsumed; reflexivity).
  assert (Ht : ∀ a b c, inputConsumed a b → inputConsumed b c → inputConsumed a c).
  { unfold inputConsumed. intros x b c H1 H2. etransitivity; eassumption. }
  destruct (fs_steps_keep_input env host) as (H1 & H2 & H3 & H4 & H5).
  exact (keep_runAction env host inputConsumed Hr Ht (fun _ x => Hr x)
           (fun _ x => Hr x) Hr ask_post_input H1 H2 H3 H4 H5 a).
Qed.

Lemma round_arith (a b c d e f g h : nat) :
  (b <= a → c <= b → d <= c → e <= d → S f = e → g <= f → S h = g → 2 + h <= a)%nat.
Proof. lia. Qed.

Lemma fuel_arith (a b n : nat) : (2 + a <= b → b < S n → a < n)%nat.
Proof. lia. Qed.

Lemma menuRound_congr (env : Env) (host : Host) (again1 again2 : M unit) (w : World) :
  (∀ w', (2 + length (stdin w') <= length (stdin w))%nat → again1 w' = again2 w') →
  menuRound env host again1 w = menuRound env host again2 w.
Proof.
  intros Hagain. unfold menuRound.
  apply bind_congr; intros [] w1 E1.
  pose proof (input_length _ _ _ _ (say_input _) E1) as L1.
  apply bind_congr; intros [] w2 E2.
  pose proof (input_length _ _ _ _ (say_input _) E2) as L2.
  apply bind_congr; intros [] w3 E3.
  pose proof (input_length _ _ _ _ (say_input _) E3) as L3.
  apply bind_congr; intros [] w4 E4.
  assert (L4 : (length (stdin w4) <= length (stdin w3))%nat).
  { refine (input_length _ _ _ _ _ E4). apply post_forEach.
    - intros x; unfold inputConsumed; reflexivity.
    - unfold inputConsumed. intros x b c Hxb Hbc. etransitivity; eassumption.
    - intros x. apply say_input. }
  apply bind_congr; intros choice w5 E5. apply ask_consumes in E5.
  destruct (menuActions choice) as [d a| |]; [|reflexivity|].
  - apply bind_congr; intros [] w6 E6.
    pose proof (input_length _ _ _ _ (runAction_input env host a) E6) as L6.
    destruct (negb _); [|reflexivity].
    apply bind_congr; intros [] w7 E7. apply pressEnterToContinue_consumes in E7.
    apply Hagain. exact (round_arith _ _ _ _ _ _ _ _ L1 L2 L3 L4 E5 L6 E7).
  - apply bind_congr; intros [] w6 E6.
    pose proof (input_length _ _ _ _ (say_input _) E6) as L6.
    apply bind_congr; intros [] w7 E7. apply pressEnterToContinue_consumes in E7.
    apply Hagain. exact (round_arith _ _ _ _ _ _ _ _ L1 L2 L3 L4 E5 L6 E7).
Qed.

Lemma mainLoop_S (env : Env) (host : Host) (n : nat) :
  mainLoop env host (S n) = menuRound env host (mainLoop env host n).
Proof. reflexivity. Qed.

#[local] Opaque mainLoop menuRound.

Lemma mainLoop_fuel_step (env : Env) (host : Host) (n : nat) :
  ∀ w, (length (stdin w) < n)%nat →
       mainLoop env host n w = mainLoop env host (S n) w.
Proof.
  induction n as [|n IH]; intros w Hlen; [exfalso; exact (Nat.nlt_0_r _ Hlen)|].
  transitivity (menuRound env host (mainLoop env host n) w);
    [rewrite mainLoop_S; reflexivity|].
  rewrite (mainLoop_S env host (S n)).
  apply menuRound_congr. intros w' Hw'. apply IH.
  exact (fuel_arith _ _ _ Hw' Hlen).
Qed.

(** X15. Every round of the loop reads a line, so rounds are bounded by
    the input: with more fuel than pending lines the run does not depend on
    the fuel. *)
Theorem mainLoop_fuel_enough (env : Env) (host : Host) (fuel : nat) (w : World) :
  (length (stdin w) < fuel)%nat →
  mainLoop env host fuel w = mainLoop env host (S (length (stdin w))) w.
Proof.
  intros H.
  assert (E : fuel = ((fuel - S (length (stdin w))) + S (length (stdin w)))%nat)
    by (clear - H; lia).
  rewrite E. clear E H.
  generalize (fuel - S (length (stdin w)))%nat as k.
  assert (G : ∀ k n, (length (stdin w) < n)%nat →
                     mainLoop env host (k + n) w = mainLoop env host n w).
  { induction k as [|k IHk]; intros n Hn; [reflexivity|].
    cbn [Nat.add]. rewrite <- (mainLoop_fuel_step env host (k + n)).
    - apply IHk. exact Hn.
    - apply (Nat.lt_le_trans _ n); [exact Hn|]. apply Nat.le_add_l. }
  intros k. apply G. apply Nat.lt_succ_diag_r.
Qed.

#[local] Transparent mainLoop menuRound.

Lemma mainLoop_fuel_enough_witness :
  mainLoop sampleEnv sampleHost 10 (freshWorld ["9"]) =
  mainLoop sampleEnv sampleHost 2 (freshWorld ["9"]).
Proof.
  apply (mainLoop_fuel_enough sampleEnv sampleHost 10 (freshWorld ["9"])).
  cbn. lia.
Defined.

#[local] Arguments runAction : simpl never.
#[local] Arguments exitAction : simpl never.
#[local] Arguments pressEnterToContinue : simpl never.
#[local] Arguments menuActions : simpl never.
#[local] Arguments within : simpl never.

(** The world once the menu is printed and the choice is read. *)
Lemma menuRound_choice (env : Env) (host : Host) (w : World)
    (choice : string) (rest : list string) :
  stdin w = choice :: rest →
  ∃ w1, (∀ again, menuRound env host again w =
        match menuActions choice with
        | Own _ action =>
          (runAction env host action ;;;
           if negb (String.eqb choice "9")
           then pressEnterToContinue ;;; again
           else ret tt) w1
        | Inherited => (Throw (TypeError "selectedAction.func is not a function"), w1)
        | Missing =>
          (logWarn "Invalid selection. Try again." ;;; pressEnterToContinue ;;; again) w1
        end) ∧
        stdin w1 = rest ∧ fsys w1 = fsys w ∧ calls w1 = calls w ∧
        supabase w1 = supabase w.
Proof.
  intros Hin. unfold menuRound, ask. unfold_m. cbn. rewrite Hin. cbn.
  eexists. split; [intros again; destruct (menuActions choice); reflexivity|].
  cbn. repeat split.
Qed.

(** X16. A choice that names nothing: a warning, one more line read for
    the Enter key, no call, files and client untouched, and the menu again. *)
Theorem menu_invalid_selection (env : Env) (host : Host) (n : nat) (w : World)
    (choice enter : string) (rest : list string) :
  stdin w = choice :: enter :: rest →
  menuActions choice = Missing →
  ∃ w1, mainLoop env host (S n) w = mainLoop env host n w1 ∧
        stdin w1 = rest ∧ fsys w1 = fsys w ∧ calls w1 = calls w ∧
        supabase w1 = supabase w ∧
        Log Warn "Invalid selection. Try again." ∈ console w1.
Proof.
  intros Hin Hmiss. rewrite mainLoop_S.
  destruct (menuRound_choice env host w choice (enter :: rest) Hin)
    as (w1 & Hround & Hs & Hf & Hc & Hcl).
  rewrite Hround.
  rewrite Hmiss. unfold pressEnterToContinue, ask. unfold_m. cbn. rewrite Hs. cbn.
  eexists. split; [reflexivity|]. cbn. repeat split; try assumption.
  rewrite !elem_of_app, !list_elem_of_singleton. auto 10.
Qed.

(** X17. A choice that names a property every object inherits is truthy
    but has no [func]: the loop throws. *)
Theorem menu_inherited_name_throws (env : Env) (host : Host) (n : nat) (w : World)
    (choice : string) (rest : list string) :
  stdin w = choice :: rest →
  In choice OBJECT_PROTOTYPE_KEYS →
  fst (mainLoop env host (S n) w) =
  Throw (TypeError "selectedAction.func is not a function").
Proof.
  intros Hin Hkey. rewrite mainLoop_S.
  destruct (menuRound_choice env host w choice rest Hin) as (w1 & Hround & _).
  rewrite Hround.
  assert (E : menuActions choice = Inherited).
  { cbn in Hkey. repeat (destruct Hkey as [<-|Hkey]; [reflexivity|]). contradiction. }
  rewrite E. reflexivity.
Qed.

Lemma menu_inherited_name_throws_witness :
  fst (mainLoop sampleEnv sampleHost 3 (freshWorld ["constructor"; ""; "9"])) =
  Throw (TypeError "selectedAction.func is not a function").
Proof.
  apply (menu_inherited_name_throws sampleEnv sampleHost 2
           (freshWorld ["constructor"; ""; "9"]) "constructor" [""; "9"]).
  - reflexivity.
  - cbn. tauto.
Defined.

Lemma menu_invalid_selection_witness :
  ∃ w1, mainLoop sampleEnv sampleHost 3 (freshWorld ["0"; ""; "9"]) =
        mainLoop sampleEnv sampleHost 2 w1 ∧
        stdin w1 = ["9"] ∧ fsys w1 = fsys (freshWorld ["0"; ""; "9"]) ∧
        calls w1 = calls (freshWorld ["0"; ""; "9"]) ∧
        supabase w1 = supabase (freshWorld ["0"; ""; "9"]) ∧
        Log Warn "Invalid selection. Try again." ∈ console w1.
Proof.
  apply (menu_invalid_selection sampleEnv sampleHost 2 (freshWorld ["0"; ""; "9"])
           "0" "" ["9"]); reflexivity.
Defined.

(** ** Leaving *)

Lemma within_eqb (p q : string) : within p q = true → q = p ∨ startsWith q (p ++ "/") = true.
Proof.
  unfold within. intros H. apply orb_true_iff in H. destruct H as [H|H]; [left|right; exact H].
  apply String.eqb_eq. exact H.
Qed.

(** X18. The exit action with the temp directory present: the input is
    closed and the action returns; when the removal succeeds nothing is left
    at or beneath the temp directory; when it throws, a warning carries the
    message, and what is left on disk was there before (part of the tree may
    be gone, nothing is created or changed). *)
Theorem exitAction_removes_temp_dir (env : Env) (host : Host) (w : World) :
  TEMP_DIR_PATH env ∈ dirs (fsys w) →
  let r := exitAction env host w in
  fst r = Ret tt ∧ stdin (snd r) = [] ∧
  (rm_fault host (TEMP_DIR_PATH env) = None →
   (∀ p, within (TEMP_DIR_PATH env) p = true →
         files (fsys (snd r)) !! p = None ∧ p ∉ dirs (fsys (snd r))) ∧
   last (console (snd r)) = Some (Log Info "Temporary directory cleaned up.")) ∧
  (∀ e, rm_fault host (TEMP_DIR_PATH env) = Some e →
   (∀ p c, files (fsys (snd r)) !! p = Some c → files (fsys w) !! p = Some c) ∧
   (∀ p, p ∈ dirs (fsys (snd r)) → p ∈ dirs (fsys w)) ∧
   last (console (snd r)) =
     Some (Log Warn ("Could not fully clean up temp directory " ++ TEMP_DIR_PATH env ++
                     ": " ++ exn_message e))).
Proof.
  intros Hdir. unfold exitAction, existsSync, rmSync, rlClose. unfold_m. cbn.
  rewrite (bool_decide_eq_true_2 _ Hdir). cbn.
  destruct (rm_fault host (TEMP_DIR_PATH env)) as [e|]; cbn.
  - split; [reflexivity|split; [reflexivity|split; [discriminate|]]].
    intros e' [= <-]. split; [|split; [|apply last_snoc]].
    + intros p c Hp. apply map_lookup_filter_Some in Hp. exact (proj1 Hp).
    + intros p Hp. apply elem_of_filter in Hp. exact (proj2 Hp).
  - split; [reflexivity|split; [reflexivity|split; [|discriminate]]].
    intros _. split; [|apply last_snoc].
    intros p Hp. split.
    + apply map_lookup_filter_None. right. intros x _. cbn. congruence.
    + rewrite elem_of_filter. intros [Hn _]. congruence.
Qed.

Lemma exitAction_removes_temp_dir_witness :
  let r := exitAction sampleEnv sampleHost (usedWorld []) in
  fst r = Ret tt ∧
  files (fsys (snd r)) !! "/home/dev/tool/supabase-debug-temp/download_a.txt" = None ∧
  last (console (snd r)) = Some (Log Info "Temporary directory cleaned up.").
Proof.
  destruct (exitAction_removes_temp_dir sampleEnv sampleHost (usedWorld []))
    as (H1 & _ & H3 & _).
  - apply elem_of_union. left. apply elem_of_singleton. reflexivity.
  - destruct (H3 eq_refl) as [H4 H5].
    split; [exact H1|split; [|exact H5]].
    apply (H4 "/home/dev/tool/supabase-debug-temp/download_a.txt"). reflexivity.
Defined.

(** The removal failing half-way: the inspection copy is gone, the
    directory and the files outside it are still there, and the warning is
    the last line. *)
Example exitAction_partial_removal :
  let r := exitAction sampleEnv busyHost (usedWorld []) in
  fst r = Ret tt ∧
  files (fsys (snd r)) !! "/home/dev/tool/supabase-debug-temp/download_a.txt" = None ∧
  "/home/dev/tool/supabase-debug-temp" ∈ dirs (fsys (snd r)) ∧
  files (fsys (snd r)) !! "/home/dev/tool/notes.txt" = Some (Text "keep") ∧
  last (console (snd r)) =
    Some (Log Warn ("Could not fully clean up temp directory " ++
                    "/home/dev/tool/supabase-debug-temp: EBUSY: resource busy or locked, " ++
                    "rmdir '/home/dev/tool/supabase-debug-temp'")).
Proof.
  cbv zeta. split; [reflexivity|]. split; [reflexivity|]. split; [|split; reflexivity].
  vm_compute. set_solver.
Qed.

Lemma exitAction_returns (env : Env) (host : Host) (w : World) :
  fst (exitAction env host w) = Ret tt ∧ stdin (snd (exitAction env host w)) = [].
Proof.
  unfold exitAction, existsSync, rmSync, rlClose. unfold_m. cbn.
  destruct (_ || _); cbn; [|split; reflexivity].
  destruct (rm_fault host _); cbn; split; reflexivity.
Qed.

(** X19. Choice 9 ends the loop: the round does not depend on the
    recursive call, returns, and leaves no input. *)
Theorem menu_exit_ends_loop (env : Env) (host : Host) (again1 again2 : M unit)
    (w : World) (rest : list string) :
  stdin w = "9" :: rest →
  menuRound env host again1 w = menuRound env host again2 w ∧
  fst (menuRound env host again1 w) = Ret tt ∧
  stdin (snd (menuRound env host again1 w)) = [].
Proof.
  intros Hin.
  destruct (menuRound_choice env host w "9" rest Hin) as (w1 & Hround & _).
  rewrite !Hround. change (menuActions "9") with (Own "Exit" ActExit).
  split; [reflexivity|].
  change (runAction env host ActExit) with (exitAction env host).
  pose proof (exitAction_returns env host w1) as [H1 H2].
  unfold bind. destruct (exitAction env host w1) as [o w2]. cbn in H1, H2. subst o.
  cbn. split; [reflexivity|exact H2].
Qed.

Lemma menu_exit_ends_loop_witness :
  menuRound sampleEnv sampleHost (mainLoop sampleEnv sampleHost 5) (usedWorld ["9"; "1"]) =
  menuRound sampleEnv sampleHost (fun w => (Hang, w)) (usedWorld ["9"; "1"]) ∧
  fst (menuRound sampleEnv sampleHost (mainLoop sampleEnv sampleHost 5)
         (usedWorld ["9"; "1"])) = Ret tt ∧
  stdin (snd (menuRound sampleEnv sampleHost (mainLoop sampleEnv sampleHost 5)
                (usedWorld ["9"; "1"]))) = [].
Proof.
  apply (menu_exit_ends_loop sampleEnv sampleHost (mainLoop sampleEnv sampleHost 5)
           (fun w => (Hang, w)) (usedWorld ["9"; "1"]) ["1"]).
  reflexivity.
Defined.

(** ** Start-up *)

Lemma validate_without_key_run (env : Env) (w : World) :
  truthy (getenv env ENV_SERVICE_KEY) = false →
  truthy (getenv env ENV_ANON_KEY) = false →
  ∃ l, validateEnvAndInitClient env w =
       (Ret false, mkWorld (supabase w) (console w ++ l) (fsys w) (calls w) (stdin w)
                           (ticks w)) ∧
       Forall isLog l.
Proof.
  intros Hs Ha.
  unfold validateEnvAndInitClient, newURL, Js.or. unfold_m. cbn.
  rewrite Hs, Ha. cbn.
  destruct (truthy (getenv env ENV_SUPABASE_URL)); cbn;
    [destruct (url_parses env _); cbn|];
    unfold emit; cbn; rewrite <- !app_assoc; cbn;
    eexists; (split; [reflexivity|]); repeat constructor.
Qed.

#[local] Arguments validateEnvAndInitClient : simpl never.
#[local] Arguments mainLoop : simpl never.

(** X20. Started without a key, the script prints log lines only (no
    menu, no question), closes the input and returns; no call, no client, no
    file. *)
Theorem start_without_key_shows_no_menu (env : Env) (host : Host) (w : World) :
  truthy (getenv env ENV_SERVICE_KEY) = false →
  truthy (getenv env ENV_ANON_KEY) = false →
  ∃ l, console (snd (start env host w)) = (console w ++ l)%list ∧
       Forall isLog l ∧
       fst (start env host w) = Ret tt ∧
       stdin (snd (start env host w)) = [] ∧
       supabase (snd (start env host w)) = supabase w ∧
       calls (snd (start env host w)) = calls w ∧
       fsys (snd (start env host w)) = fsys w.
Proof.
  intros Hs Ha. unfold start, rlClose. unfold_m. cbn.
  match goal with |- context [validateEnvAndInitClient env ?w0] =>
    destruct (validate_without_key_run env w0 Hs Ha) as (l & -> & Hl) end.
  cbn. eexists. split; [rewrite <- !app_assoc; reflexivity|].
  split; [|repeat split].
  repeat (apply Forall_cons; split; [exact I|]).
  apply Forall_app. split; [exact Hl|]. repeat constructor.
Qed.

Lemma start_without_key_shows_no_menu_witness :
  fst (start keylessEnv sampleHost (freshWorld ["1"])) = Ret tt ∧
  stdin (snd (start keylessEnv sampleHost (freshWorld ["1"]))) = [] ∧
  calls (snd (start keylessEnv sampleHost (freshWorld ["1"]))) = [].
Proof.
  destruct (start_without_key_shows_no_menu keylessEnv sampleHost (freshWorld ["1"]))
    as (l & _ & _ & H1 & H2 & _ & H3 & _); [reflexivity|reflexivity|].
  split; [exact H1|split; [exact H2|exact H3]].
Defined.

(** ** The generated payload *)



(** ** Answers a handler refuses *)

(** X22. An empty bucket name stops the generated upload, the file
    listing and the download test at once: one answer read, the error
    printed last, no payload generated, no call. *)
Theorem empty_bucket_name_stops_handler (env : Env) (w : World) (rest : list string) :
  stdin w = "" :: rest →
  (∀ fileType, gaveUp w rest "Bucket name required."
                 (handleGeneratedFileUpload env fileType w)) ∧
  gaveUp w rest "Bucket name required." (showBucketFiles env w) ∧
  gaveUp w rest "Bucket name required." (checkDownload env w).
Proof.
  intros Hin. unfold gaveUp.
  split; [intros fileType|split].
  - unfold handleGeneratedFileUpload, ask. unfold_m. cbn. rewrite Hin. cbn.
    repeat split. apply last_snoc.
  - unfold showBucketFiles, ask. unfold_m. cbn. rewrite Hin. cbn.
    repeat split. apply last_snoc.
  - unfold checkDownload, ask. unfold_m. cbn. rewrite Hin. cbn.
    repeat split. apply last_snoc.
Qed.

Lemma empty_bucket_name_stops_handler_witness :
  gaveUp (freshWorld [""; "x"]) ["x"] "Bucket name required."
    (checkDownload sampleEnv (freshWorld [""; "x"])).
Proof.
  apply (empty_bucket_name_stops_handler sampleEnv (freshWorld [""; "x"]) ["x"]).
  reflexivity.
Defined.

(** X23. An empty file path stops the download test: no download, no
    public URL, no probe, no file. *)
Theorem checkDownload_empty_path_stops (env : Env) (w : World) (bucketName : string)
    (rest : list string) :
  stdin w = bucketName :: "" :: rest → bucketName ≠ "" →
  gaveUp w rest "File path required." (checkDownload env w).
Proof.
  intros Hin Hb. unfold gaveUp, checkDownload, ask. unfold_m. cbn. rewrite Hin. cbn.
  rewrite (strTruthy_ne _ Hb). cbn. repeat split. apply last_snoc.
Qed.

(** ** Names of files *)

Lemma splitLast_None_cons (c : ascii) (s : string) :
  Path.splitLast (String c s) = None → Path.isSlash c = false ∧ Path.splitLast s = None.
Proof.
  cbn. destruct (Path.splitLast s) as [[d b]|]; [discriminate|].
  destruct (Path.isSlash c); [discriminate|]. auto.
Qed.

Lemma basenameFrom_segment (name : string) :
  ∀ cur last, Path.splitLast name = None →
    Path.basenameFrom name cur last =
    if String.eqb (cur ++ name) "" then last else cur ++ name.
Proof.
  induction name as [|c name IH]; intros cur last Hn.
  - cbn. replace (cur ++ "") with cur; [reflexivity|].
    clear. induction cur as [|a cur IHc]; [reflexivity|].
    change (String a cur ++ "") with (String a (cur ++ "")). now rewrite <- IHc.
  - destruct (splitLast_None_cons _ _ Hn) as [Hc Hn'].
    cbn [Path.basenameFrom]. rewrite Hc. rewrite (IH _ _ Hn').
    rewrite append_assoc. reflexivity.
Qed.

Lemma basenameFrom_join (d name : string) :
  name ≠ "" → Path.splitLast name = None →
  ∀ cur last, Path.basenameFrom (Path.join d name) cur last = name.
Proof.
  intros Hne Hn. unfold Path.join. induction d as [|c d IH]; intros cur last.
  - change ("" ++ "/" ++ name) with (String "/" name).
    cbn [Path.basenameFrom]. change (Path.isSlash "/") with true. cbn iota.
    rewrite (basenameFrom_segment name "" _ Hn).
    change ("" ++ name) with name.
    destruct (String.eqb_spec name ""); [contradiction|reflexivity].
  - change (String c d ++ "/" ++ name) with (String c (d ++ "/" ++ name)).
    cbn [Path.basenameFrom]. destruct (Path.isSlash c); apply IH.
Qed.

Lemma basename_join (d name : string) :
  name ≠ "" → Path.splitLast name = None → Path.basename (Path.join d name) = name.
Proof. intros Hne Hn. unfold Path.basename. apply basenameFrom_join; assumption. Qed.

Lemma checkDownload_empty_path_stops_witness :
  gaveUp (freshWorld ["avatars"; ""]) [] "File path required."
    (checkDownload sampleEnv (freshWorld ["avatars"; ""])).
Proof.
  apply (checkDownload_empty_path_stops sampleEnv (freshWorld ["avatars"; ""]) "avatars" []).
  - reflexivity.
  - discriminate.
Defined.

(** ** The content type guessed from a file name *)

Lemma splitLastDot_stem (stem ext : string) :
  splitLastDot ext = None → splitLastDot (stem ++ "." ++ ext) = Some (stem, ext).
Proof.
  intros Hext. induction stem as [|c stem IH].
  - change ("" ++ "." ++ ext) with (String "." ext). cbn. rewrite Hext. reflexivity.
  - change (String c stem ++ "." ++ ext) with (String c (stem ++ "." ++ ext)).
    cbn. rewrite IH. reflexivity.
Qed.

Lemma app_nonempty (a b : string) : a ≠ "" → a ++ b ≠ "".
Proof. destruct a; [contradiction|discriminate]. Qed.

Lemma extname_join (dir stem ext : string) :
  stem ≠ "" → ext ≠ "" → splitLastDot ext = None →
  Path.splitLast (stem ++ "." ++ ext) = None →
  extname (Path.join dir (stem ++ "." ++ ext)) = "." ++ ext.
Proof.
  intros Hstem Hext Hdot Hslash. unfold extname.
  rewrite basename_join by (try apply app_nonempty; assumption).
  rewrite (splitLastDot_stem _ _ Hdot).
  destruct (String.eqb_spec stem ""); [contradiction|].
  destruct (String.eqb_spec ext ""); [contradiction|].
  rewrite andb_false_r. reflexivity.
Qed.

Lemma MIME_TYPES_MAP_nonempty (k t : string) : MIME_TYPES_MAP !! k = Some t → t ≠ "".
Proof.
  unfold MIME_TYPES_MAP.
  repeat (rewrite lookup_insert_Some; intros [[_ <-]|[_ H]]; [discriminate|revert H]).
  rewrite lookup_empty. discriminate.
Qed.

(** X24. The content type guessed for [dir/stem.ext] is the entry of
    the table for the lower-cased extension after the last dot of the base
    name. *)
Theorem guessContentType_by_extension (dir stem ext t : string) :
  stem ≠ "" → ext ≠ "" → splitLastDot ext = None →
  Path.splitLast (stem ++ "." ++ ext) = None →
  MIME_TYPES_MAP !! ("." ++ toLowerCase ext) = Some t →
  guessContentType (Path.join dir (stem ++ "." ++ ext)) = t.
Proof.
  intros Hstem Hext Hdot Hslash Ht. unfold guessContentType.
  rewrite extname_join by assumption.
  change (toLowerCase ("." ++ ext)) with ("." ++ toLowerCase ext).
  cbv zeta. rewrite Ht. unfold Js.or. cbn [truthy].
  destruct (String.eqb_spec t ""); [|reflexivity].
  now apply MIME_TYPES_MAP_nonempty in Ht.
Qed.

Lemma guessContentType_by_extension_witness :
  guessContentType "/home/me/holiday.photo.JPG" = "image/jpeg".
Proof.
  apply (guessContentType_by_extension "/home/me" "holiday.photo" "JPG" "image/jpeg");
    try discriminate; reflexivity.
Defined.

(** The guess is never empty: a known extension gives its entry, anything
    else the default. *)
Lemma guessContentType_never_empty (filePath : string) :
  guessContentType filePath ≠ "".
Proof.
  unfold guessContentType. cbv zeta.
  destruct (MIME_TYPES_MAP !! toLowerCase (extname filePath)) as [t|] eqn:Ht.
  - unfold Js.or. cbn [truthy].
    destruct (String.eqb_spec t ""); cbn; [discriminate|assumption].
  - discriminate.
Qed.

(** ** Uploading a local file *)

(** X25. A local path that does not exist, or an empty one: the error is
    printed and the handler returns before asking for a bucket. *)
Theorem handleCustomFileUpload_missing_file (env : Env) (host : Host) (w : World)
    (p : string) (rest : list string) :
  stdin w = p :: rest →
  files (fsys w) !! p = None → (p ∉ dirs (fsys w)) →
  gaveUp w rest ("File not found or path invalid: " ++ p)
    (handleCustomFileUpload env host w).
Proof.
  intros Hin Hf Hd. unfold gaveUp, handleCustomFileUpload, ask, existsSync. unfold_m.
  cbn. rewrite Hin. cbn.
  destruct (strTruthy p); cbn; rewrite ?Hf, ?(bool_decide_eq_false_2 _ Hd),
    ?(bool_decide_eq_false_2 (is_Some None)) by (intros [? ?]; discriminate); cbn;
    repeat split; apply last_snoc.
Qed.

Lemma handleCustomFileUpload_missing_file_witness :
  gaveUp (freshWorld ["/tmp/nothing.txt"; "avatars"]) ["avatars"]
    "File not found or path invalid: /tmp/nothing.txt"
    (handleCustomFileUpload sampleEnv sampleHost (freshWorld ["/tmp/nothing.txt"; "avatars"])).
Proof.
  apply (handleCustomFileUpload_missing_file sampleEnv sampleHost
           (freshWorld ["/tmp/nothing.txt"; "avatars"]) "/tmp/nothing.txt" ["avatars"]).
  - reflexivity.
  - reflexivity.
  - vm_compute. set_solver.
Defined.


#[local] Arguments coreUploadProcessor : simpl never.
#[local] Arguments guessContentType : simpl never.
#[local] Arguments Path.basename : simpl never.



(** ** The list of buckets *)

Lemma showBucket_run (env : Env) (host : Host) (b : Bucket) (w : World) :
  ∃ w', showBucket env host b w = (Ret tt, w') ∧
        calls w' = calls w ∧ fsys w' = fsys w ∧ stdin w' = stdin w ∧
        ∃ more, console w' = (console w ++ bucketLine b :: more)%list.
Proof.
  unfold showBucket, bucketLine. unfold_m. cbn.
  eexists; split; [reflexivity|]. cbn. repeat split.
  rewrite <- !app_assoc. eexists; reflexivity.
Qed.

#[local] Arguments showBucket : simpl never.

Lemma forEach_showBucket (env : Env) (host : Host) (bs : list Bucket) :
  ∀ w, ∃ w', forEach (showBucket env host) bs w = (Ret tt, w') ∧
        calls w' = calls w ∧ fsys w' = fsys w ∧ stdin w' = stdin w ∧
        (∀ x, x ∈ console w → x ∈ console w') ∧
        (∀ b, b ∈ bs → bucketLine b ∈ console w').
Proof.
  induction bs as [|b bs IH]; intros w.
  - exists w. cbn. repeat split; auto. intros b Hb. inversion Hb.
  - cbn [forEach]. unfold bind.
    destruct (showBucket_run env host b w) as (w1 & -> & Hc1 & Hf1 & Hs1 & more & Hcon1).
    destruct (IH w1) as (w2 & -> & Hc2 & Hf2 & Hs2 & Hmono & Hall).
    exists w2. repeat split; try congruence.
    + intros x Hx. apply Hmono. rewrite Hcon1. apply elem_of_app. now left.
    + intros b' Hb'. apply elem_of_cons in Hb' as [-> | Hb'].
      * apply Hmono. rewrite Hcon1. apply elem_of_app. right. apply elem_of_cons. now left.
      * now apply Hall.
Qed.

(** X27. A list of buckets in the reply: one call, no input read, no
    file touched; an empty list ends with a warning, and every bucket of a
    non-empty list has its name line printed. *)
Theorem showBuckets_lists_every_bucket (env : Env) (host : Host) (w : World) (c : Client)
    (bs : list Bucket) :
  supabase w = Some c →
  listBuckets env = Replies (Some bs) None →
  let r := showBuckets env host w in
  fst r = Ret tt ∧
  calls (snd r) = (calls w ++ [CallListBuckets])%list ∧
  fsys (snd r) = fsys w ∧ stdin (snd r) = stdin w ∧
  (bs = [] → last (console (snd r)) =
             Some (Log Warn "No buckets found. Create buckets in your Supabase dashboard.")) ∧
  (∀ b, b ∈ bs → bucketLine b ∈ console (snd r)).
Proof.
  intros Hc Hbs. cbv zeta. unfold showBuckets. unfold_m. cbn. rewrite Hc. cbn.
  rewrite Hbs. cbn. destruct bs as [|b bs].
  - cbn. repeat split; try discriminate.
    + intros _. apply last_snoc.
    + intros b Hb. inversion Hb.
  - cbn [length Nat.eqb].
    match goal with |- context [forEach _ _ ?w0] =>
      destruct (forEach_showBucket env host (b :: bs) w0)
        as (w' & Hrun & Hcalls & Hfs & Hstd & _ & Hall)
    end.
    rewrite Hrun. cbn. repeat split; try assumption. discriminate.
Qed.

Lemma showBuckets_lists_every_bucket_witness :
  bucketLine (mkBucket "avatars" true)
    ∈ console (snd (showBuckets sampleEnv sampleHost (freshWorld []))).
Proof.
  refine (proj2 (proj2 (proj2 (proj2 (proj2
    (showBuckets_lists_every_bucket sampleEnv sampleHost (freshWorld [])
       (mkClient SAMPLE_URL "service-role-key") _ eq_refl eq_refl))))) _ _).
  apply elem_of_cons. left. reflexivity.
Defined.

(** The bucket list always returns: whatever fails is caught or reported. *)
Lemma showBuckets_never_throws (env : Env) (host : Host) (w : World) :
  fst (showBuckets env host w) = Ret tt.
Proof.
  unfold showBuckets. unfold_m. cbn.
  destruct (supabase w) as [c|]; cbn; [|reflexivity].
  destruct (listBuckets env) as [e|[bs|] [err|]]; cbn; try reflexivity.
  1,3: destruct (getErrorHint err) as [e|h]; reflexivity.
  destruct bs as [|b bs]; [reflexivity|]. cbn [length Nat.eqb].
  match goal with |- context [forEach _ _ ?w0] =>
    destruct (forEach_showBucket env host (b :: bs) w0) as (w' & Hrun & _)
  end.
  rewrite Hrun. reflexivity.
Qed.

(** ** The connection test and the session *)

Lemma strictEq_str (v : jsval) (s : string) : strictEq v (JStr s) = true ↔ v = JStr s.
Proof.
  destruct v as [| |b|n|x|p|bf]; cbn; try (split; [discriminate|intros [=]]).
  split; [intros H%String.eqb_eq; congruence|intros [= ->]; apply String.eqb_refl].
Qed.

(** X28. Step 1 of the connection test prints exactly one line about the
    session: with an auth error (also from a rejected call) whose message
    is not "Auth session missing!" it is the warning with that message; with
    that very message and no user it is the note that no session is active. *)
Theorem checkConnectivity_auth_report (env : Env) (w : World) (c : Client)
    (u : option User) (err : ApiError) :
  supabase w = Some c →
  (∃ d, auth_getUser env = Replies (Some d) (Some err) ∧ user d = u) ∨
  (∃ e, auth_getUser env = Rejects e ∧ err = errorOfExn e ∧ u = None) →
  ∃ line more,
    console (snd (checkConnectivity env w)) =
      (console w ++
       [Clear;
        Banner COLORS_blue "===" ("CONNECTION & CONFIGURATION TEST ===" ++ NL);
        Log Info "1. Basic Supabase Client & Auth Status:";
        Log Success "Supabase client instance exists.";
        line;
        Log Info (NL ++ "2. Storage API Test (Listing Buckets):")] ++ more)%list ∧
    (message err = JStr "Auth session missing!" → u = None →
     line = Log Info
       "No active user session (normal for service key or unauthenticated anon key).") ∧
    (message err ≠ JStr "Auth session missing!" →
     line = Log Warn ("Auth check warning: " ++ toString (message err))).
Proof.
  intros Hc Hauth. unfold checkConnectivity, corsCheckStep. unfold_m. cbn.
  rewrite Hc. cbn.
  assert (Hcase : strictEq (message err) (JStr "Auth session missing!") = true ∧
                  message err = JStr "Auth session missing!" ∨
                  strictEq (message err) (JStr "Auth session missing!") = false ∧
                  message err ≠ JStr "Auth session missing!").
  { destruct (strictEq _ _) eqn:E; [left|right]; (split; [reflexivity|]).
    - now apply strictEq_str.
    - intros H%strictEq_str. congruence. }
  destruct Hauth as [(d & Ha & Hu)|(e & Ha & Herr & Hu)]; rewrite Ha;
    [|subst err u]; cbn in Hcase |- *;
    destruct Hcase as [[Heq Hm]|[Heq Hm]]; rewrite Heq; cbn;
    try (rewrite Hu; destruct u as [usr|]; cbn).
  all: destruct (listBuckets env) as [?|[?|] [berr|]]; cbn;
    try (destruct (getErrorHint berr); cbn);
    try (destruct (truthy (getenv env ENV_SUPABASE_URL)); cbn);
    try match goal with |- context [checkUrl ?en ?url ?w1] =>
          let Hw := fresh "Hw" in
          pose proof (checkUrl_world en url w1) as Hw;
          destruct (checkUrl en url w1) as [[r|e0|] w2]; cbn in Hw; subst w2; cbn;
          try destruct (accessible r || (statusCode r =? 400)); cbn
        end;
    rewrite <- ?app_assoc; eexists _, _; (split; [reflexivity|]).
  all: split; [intros Hmm Hn; try discriminate; try reflexivity; exfalso; exact (Hm Hmm)
              |intros Hne; try reflexivity; exfalso; exact (Hne Hm)].
Qed.

Lemma checkConnectivity_auth_report_witness :
  ∃ more,
    console (snd (checkConnectivity sampleEnv (freshWorld []))) =
      ([Clear;
        Banner COLORS_blue "===" ("CONNECTION & CONFIGURATION TEST ===" ++ NL);
        Log Info "1. Basic Supabase Client & Auth Status:";
        Log Success "Supabase client instance exists.";
        Log Info
          "No active user session (normal for service key or unauthenticated anon key).";
        Log Info (NL ++ "2. Storage API Test (Listing Buckets):")] ++ more)%list.
Proof.
  destruct (checkConnectivity_auth_report sampleEnv (freshWorld [])
              (mkClient SAMPLE_URL "service-role-key") None
              (mkApiError (JStr "Auth session missing!")) eq_refl)
    as (line & more & H1 & H2 & _).
  - left. eexists. split; reflexivity.
  - exists more. rewrite <- (H2 eq_refl eq_refl). exact H1.
Defined.

(** ** The full diagnostics *)

(** X29. A rejected bucket listing is caught in part 2 of the
    diagnostics and reported, but part 3 lists the buckets again outside any
    [try]: the diagnostics throw the rejection, after two listing calls and
    without touching a file. *)
Theorem fullDiagnostics_rejection_escapes (env : Env) (host : Host) (w : World)
    (c : Client) (e : Exn) :
  supabase w = Some c →
  listBuckets env = Rejects e →
  let r := fullDiagnostics env host w in
  fst r = Throw e ∧
  Log Error ("   Bucket ops error: " ++ exn_message e) ∈ console (snd r) ∧
  calls (snd r) = (calls w ++ [CallListBuckets; CallListBuckets])%list ∧
  fsys (snd r) = fsys w.
Proof.
  intros Hc Hl. cbv zeta.
  unfold fullDiagnostics, diagStatus, diagBuckets, diagReadWrite. unfold_m. cbn.
  do 4 (rewrite ?Hc, ?Hl; cbn).
  split; [reflexivity|]. split; [|split; [rewrite <- app_assoc; reflexivity|reflexivity]].
  rewrite !elem_of_app, !list_elem_of_singleton. auto 10.
Qed.

Lemma fullDiagnostics_rejection_escapes_witness :
  fst (fullDiagnostics (withListBuckets (Rejects (mkExn "fetch failed")) sampleEnv)
         sampleHost (freshWorld [])) = Throw (mkExn "fetch failed").
Proof.
  refine (proj1 (fullDiagnostics_rejection_escapes
            (withListBuckets (Rejects (mkExn "fetch failed")) sampleEnv) sampleHost
            (freshWorld []) (mkClient SAMPLE_URL "service-role-key")
            (mkExn "fetch failed") eq_refl eq_refl)).
Defined.

(** X30. Part 4 of the diagnostics probes the object that is not there,
    in the first bucket or in "test-bucket", once, and prints one verdict
    before the tip: success exactly for status 404, an error exactly for
    status 0, a warning for every other status (200 included). *)
Theorem diagPublicUrl_verdict (env : Env) (targetBucket : option string) (w : World)
    (u bucket : string) (ev : ReqEvent) (evs : list ReqEvent) :
  getenv env ENV_SUPABASE_URL = JStr u → u ≠ "" →
  (targetBucket = Some bucket ∧ bucket ≠ "") ∨
  ((targetBucket = None ∨ targetBucket = Some "") ∧ bucket = "test-bucket") →
  let url := u ++ "/storage/v1/object/public/" ++ bucket ++ "/nonexistent-test-file.txt" in
  http_get env (protocolOf url) url 5000 = GetEvents (ev :: evs) →
  let status := statusCode (settledBy ev) in
  ∃ level text w',
    diagPublicUrl env targetBucket w = (Ret tt, w') ∧
    calls w' = (calls w ++ [CallHttpGet (protocolOf url) url 5000])%list ∧
    (∃ tip, console w' =
       (console w ++ [Banner COLORS_bright (NL ++ "4.") "CORS/Public URL Check";
                      Log Info ("   Pinging sample public URL: " ++ url);
                      Log level text; Log Tip tip])%list) ∧
    (level = Success ↔ status = 404) ∧
    (level = Warn ↔ 0 < status ∧ status ≠ 404) ∧
    (level = Error ↔ status <= 0).
Proof.
  intros Hu Hne Hb url Hget status. unfold diagPublicUrl. rewrite Hu.
  cbn [truthy toString]. destruct (String.eqb_spec u ""); [contradiction|]. cbn [negb].
  assert (Hbucket : match targetBucket with
                    | Some b => if strTruthy b then b else "test-bucket"
                    | None => "test-bucket"
                    end = bucket).
  { destruct Hb as [[-> Hbn]|[[-> | ->] ->]]; try reflexivity.
    now rewrite (strTruthy_ne _ Hbn). }
  rewrite Hbucket. fold url. unfold_m. cbn.
  rewrite (checkUrl_first_event env url _ ev evs Hget). cbn. fold status.
  destruct (Z.eqb_spec status 404) as [E|E]; [|destruct (Z.ltb_spec 0 status)]; cbn;
    eexists _, _, _; (split; [reflexivity|]); cbn; (split; [reflexivity|]);
    (split; [eexists; rewrite <- !app_assoc; reflexivity|]).
  all: clearbody status; clear - E H || clear - E.
  all: repeat split; try discriminate; try reflexivity; intros; lia.
Qed.

Lemma diagPublicUrl_verdict_witness :
  ∃ text w',
    diagPublicUrl sampleEnv None (freshWorld []) = (Ret tt, w') ∧
    nth_error (console w') 2 = Some (Log Warn text).
Proof.
  destruct (diagPublicUrl_verdict sampleEnv None (freshWorld []) SAMPLE_URL "test-bucket"
              (EvResponse 200) [] eq_refl)
    as (level & text & w' & Hrun & _ & [tip Hcon] & _ & [_ Hwarn] & _).
  - discriminate.
  - right. split; [left|]; reflexivity.
  - reflexivity.
  - exists text, w'. split; [exact Hrun|]. rewrite Hcon, Hwarn; [reflexivity|].
    cbn. lia.
Defined.
